(** * ecommerce-recommendation-engine: a shallow embedding

    The development follows the repository's files:

    - [Frontend]  the React component of [frontend/src/App.js]
                  (state, recommendations, interactions, cart);
    - [Api]       the HTTP client of [frontend/src/services/api.js];
    - [Engine]    the Python recommendation engine shown in the technical
                  documentation appended to [frontend/src/App.js]
                  (scoring table, time decay, matrix factorisation, the
                  cached [get_recommendations], the retraining task and the
                  A/B assignment);
    - [Spec]      three requirements of the specification in its own
                  words, to compare the code with.

    JavaScript numbers that stay integral (ids, quantities, counts) are [Z];
    prices, ratings and scores are exact rationals [Q]; the factor trainer
    computes on IEEE binary64 [float]s; the time decay uses [R] for [exp]. *)

From Stdlib Require Import ZArith QArith Reals Lra Floats String Ascii List.
From Stdlib Require Import DecimalString.
From Stdlib Require DecimalZ DecimalFacts.
From stdpp Require Import gmap strings list sorting.

Set Default Proof Using "Type".
#[local] Set Warnings "-inexact-float,-register-all".

(** ** Outcomes of fallible code: a JavaScript promise that resolves or
    rejects, a Python call that returns or raises. *)

Inductive result (E A : Type) : Type :=
| Ok (a : A)
| Err (e : E).
Arguments Ok {E A} a.
Arguments Err {E A} e.

Definition is_ok {E A} (r : result E A) : bool :=
  match r with Ok _ => true | Err _ => false end.

(** [Math.random()] and the like: a generator is a stream of draws and a
    position in it. *)

Record random_source (A : Type) : Type := RandomSource
  { draws : nat -> A; position : nat }.
Arguments RandomSource {A} draws position.
Arguments draws {A} r n.
Arguments position {A} r.

Definition next_draw {A} (g : random_source A) : A * random_source A :=
  (draws g (position g), RandomSource (draws g) (S (position g))).

(** * The React component, [frontend/src/App.js] *)

Module Frontend.

(** [modelScores] of a recommendation. *)
Record model_scores : Type := ModelScores
  { collaborative : float;
    contentBased : float;
    deepLearning : float;
    hybrid : float }.

(** A product object. A recommendation is a product spread into a new
    object together with [confidence] and [modelScores]; a plain product
    has neither property. *)
Record product : Type := Product
  { product_id : Z;
    product_name : string;
    product_category : string;
    product_price : Q;
    product_rating : Q;
    product_image : string;
    product_description : string;
    product_tags : list string;
    product_brand : string;
    product_stock : Z;
    product_features : list string;
    product_reviews : Z;
    confidence : option float;
    modelScores : option model_scores }.

Definition sampleProducts : list product :=
  [ Product 1 "Wireless Bluetooth Headphones" "Electronics" (9999 # 100)
      (45 # 10) "🎧" "Premium noise-canceling headphones with 30hr battery"
      ["wireless"; "noise-canceling"; "premium"] "AudioTech" 45
      ["Active Noise Cancellation"; "30hr Battery"; "Quick Charge"] 1247
      None None;
    Product 2 "Smart Fitness Watch" "Electronics" (19999 # 100)
      (47 # 10) "⌚" "Advanced health tracking with GPS and heart rate"
      ["fitness"; "smartwatch"; "health"] "FitTech" 32
      ["GPS Tracking"; "Heart Rate Monitor"; "Sleep Analysis"] 892
      None None;
    Product 3 "Organic Cotton T-Shirt" "Clothing" (2999 # 100)
      (43 # 10) "👕" "Sustainable and comfortable everyday wear"
      ["organic"; "sustainable"; "cotton"] "EcoWear" 78
      ["100% Organic Cotton"; "Fair Trade"; "Machine Washable"] 456
      None None;
    Product 4 "Premium Coffee Beans" "Food" (2499 # 100)
      (48 # 10) "☕" "Single-origin Ethiopian beans, medium roast"
      ["coffee"; "organic"; "fair-trade"] "BrewMaster" 67
      ["Single Origin"; "Medium Roast"; "Fair Trade Certified"] 2134
      None None;
    Product 5 "Yoga Mat Pro" "Sports" (5999 # 100)
      (46 # 10) "🧘" "Non-slip premium yoga mat with alignment guides"
      ["yoga"; "fitness"; "non-slip"] "ZenFit" 23
      ["Non-slip Surface"; "Alignment Lines"; "Eco-friendly"] 678
      None None ].

Record user : Type := User
  { user_id : Z;
    user_name : string;
    user_email : string;
    user_type : string;
    user_preferences : list string;
    user_age : Z;
    user_location : string }.

Definition users : list user :=
  [ User 1 "Alex Chen" "alex@example.com" "tech_enthusiast"
      ["electronics"; "gadgets"; "innovation"] 28 "San Francisco";
    User 2 "Sarah Johnson" "sarah@example.com" "fitness_lover"
      ["fitness"; "health"; "wellness"] 32 "New York";
    User 3 "Mike Rodriguez" "mike@example.com" "fashion_forward"
      ["fashion"; "style"; "designer"] 35 "Los Angeles";
    User 4 "Emma Wilson" "emma@example.com" "health_conscious"
      ["organic"; "sustainable"; "health"] 29 "Seattle" ].

(** An entry of [userBehavior]; [timestamp] is the clock's milliseconds. *)
Record behavior : Type := Behavior
  { userId : Z; productId : Z; type : string; timestamp : Z }.

Record notification : Type := Notification
  { notification_id : Z;
    message : string;
    notification_type : string;
    notification_timestamp : Z }.

(** An entry of [cart]: the product's properties and [quantity]. *)
Record cart_item : Type := CartItem
  { item : product; quantity : Z }.

(** Callbacks handed to [setTimeout], with their delay in milliseconds. *)
Inductive callback : Type :=
| FinishRecommendations
| GenerateRecommendations (userId : Z)
| DropNotification (id : Z).

(** The component's state hooks that the modelled functions touch, the
    timers they start and the position of [Math.random]. *)
Record state : Type := State
  { currentUser : option user;
    recommendations : list product;
    cart : list cart_item;
    userBehavior : list behavior;
    isLoading : bool;
    modelTrainingStatus : string;
    notifications : list notification;
    timers : list (Z * callback);
    random : random_source float }.

Definition initial (g : random_source float) : state :=
  State None [] [] [] false "idle" [] [] g.

Definition set_recommendations (v : list product) (s : state) : state :=
  State (currentUser s) v (cart s) (userBehavior s) (isLoading s)
        (modelTrainingStatus s) (notifications s) (timers s) (random s).
Definition setCart (v : list cart_item) (s : state) : state :=
  State (currentUser s) (recommendations s) v (userBehavior s) (isLoading s)
        (modelTrainingStatus s) (notifications s) (timers s) (random s).
Definition setUserBehavior (v : list behavior) (s : state) : state :=
  State (currentUser s) (recommendations s) (cart s) v (isLoading s)
        (modelTrainingStatus s) (notifications s) (timers s) (random s).
Definition setIsLoading (v : bool) (s : state) : state :=
  State (currentUser s) (recommendations s) (cart s) (userBehavior s) v
        (modelTrainingStatus s) (notifications s) (timers s) (random s).
Definition setModelTrainingStatus (v : string) (s : state) : state :=
  State (currentUser s) (recommendations s) (cart s) (userBehavior s)
        (isLoading s) v (notifications s) (timers s) (random s).
Definition setNotifications (v : list notification) (s : state) : state :=
  State (currentUser s) (recommendations s) (cart s) (userBehavior s)
        (isLoading s) (modelTrainingStatus s) v (timers s) (random s).
Definition setCurrentUser (v : option user) (s : state) : state :=
  State v (recommendations s) (cart s) (userBehavior s)
        (isLoading s) (modelTrainingStatus s) (notifications s) (timers s)
        (random s).
Definition setTimeout (c : callback) (delay : Z) (s : state) : state :=
  State (currentUser s) (recommendations s) (cart s) (userBehavior s)
        (isLoading s) (modelTrainingStatus s) (notifications s)
        (timers s ++ [(delay, c)]) (random s).
Definition set_random (g : random_source float) (s : state) : state :=
  State (currentUser s) (recommendations s) (cart s) (userBehavior s)
        (isLoading s) (modelTrainingStatus s) (notifications s) (timers s) g.

(** [addNotification(message, type = 'info')] at clock reading [now]. *)
Definition addNotification (now : Z) (msg ty : string) (s : state) : state :=
  let n := Notification now msg ty now in
  setTimeout (DropNotification now) 5000
    (setNotifications (n :: firstn 4 (notifications s)) s).

(** The timer of [addNotification] firing. *)
Definition dropNotification (id : Z) (s : state) : state :=
  setNotifications
    (filter (fun n => notification_id n ≠ id) (notifications s)) s.

(** One element of [sampleProducts.slice(0, 6).map(product => ...)]: the
    object literal draws [confidence] first, then the four model scores.
    [Math.random() * 0.5 + 0.5] is arithmetic on doubles. *)
Definition recommend (p : product) (g : random_source float)
  : product * random_source float :=
  let '(r0, g) := next_draw g in
  let '(r1, g) := next_draw g in
  let '(r2, g) := next_draw g in
  let '(r3, g) := next_draw g in
  let '(r4, g) := next_draw g in
  (Product (product_id p) (product_name p) (product_category p)
     (product_price p) (product_rating p) (product_image p)
     (product_description p) (product_tags p) (product_brand p)
     (product_stock p) (product_features p) (product_reviews p)
     (Some (r0 * 0.5 + 0.5)%float)
     (Some (ModelScores r1 r2 r3 r4)), g).

Fixpoint map_random (ps : list product) (g : random_source float)
  : list product * random_source float :=
  match ps with
  | [] => ([], g)
  | p :: ps =>
      let '(r, g) := recommend p g in
      let '(rs, g) := map_random ps g in
      (r :: rs, g)
  end.

(** [generateAdvancedRecommendations(userId)]: the synchronous part, which
    starts the 2000 ms timer. *)
Definition generateAdvancedRecommendations (userId : Z) (s : state) : state :=
  setTimeout FinishRecommendations 2000
    (setModelTrainingStatus "processing" (setIsLoading true s)).

(** The body of that timer. *)
Definition finishRecommendations (now : Z) (s : state) : state :=
  let '(recs, g) := map_random (firstn 6 sampleProducts) (random s) in
  addNotification now "🎯 AI recommendations updated with ensemble model"
    "success"
    (setIsLoading false
       (setModelTrainingStatus "completed"
          (set_recommendations recs (set_random g s)))).

(** [['purchase', 'cart', 'wishlist'].includes(type)] *)
Definition triggers_update (ty : string) : bool :=
  bool_decide (ty ∈ ["purchase"; "cart"; "wishlist"]).

(** [recordAdvancedInteraction(productId, type)] *)
Definition recordAdvancedInteraction (now : Z) (productId : Z) (ty : string)
    (s : state) : state :=
  match currentUser s with
  | None => s
  | Some u =>
      let newBehavior := Behavior (user_id u) productId ty now in
      let s := setUserBehavior (userBehavior s ++ [newBehavior]) s in
      if triggers_update ty then
        addNotification now
          ("🔄 Model updating based on your " ++ ty ++ " action") "info"
          (setTimeout (GenerateRecommendations (user_id u)) 800 s)
      else s
  end.

(** [cart.find(item => item.id === product.id)] *)
Definition find_item (c : list cart_item) (p : product) : option cart_item :=
  find (fun i => (product_id (item i) =? product_id p)%Z) c.

Definition increment (p : product) (i : cart_item) : cart_item :=
  if (product_id (item i) =? product_id p)%Z
  then CartItem (item i) (quantity i + 1)
  else i.

(** The new value that [addToCart] hands to [setCart]. *)
Definition add_item (c : list cart_item) (p : product) : list cart_item :=
  match find_item c p with
  | Some _ => map (increment p) c
  | None => c ++ [CartItem p 1]
  end.

(** [addToCart(product)] *)
Definition addToCart (now : Z) (p : product) (s : state) : state :=
  recordAdvancedInteraction now (product_id p) "cart"
    (setCart (add_item (cart s) p) s).

(** The checkout button: a purchase is recorded for every entry of the
    cart, then the cart is emptied. *)
Definition checkout (now : Z) (s : state) : state :=
  setCart []
    (addNotification now "🎉 Order placed successfully!" "success"
       (fold_left
          (fun s i => recordAdvancedInteraction now (product_id (item i))
                        "purchase" s)
          (cart s) s)).

(** [handleUserLogin(user)] *)
Definition handleUserLogin (now : Z) (u : user) (s : state) : state :=
  addNotification now ("Welcome back, " ++ user_name u ++ "! 🎉") "success"
    (generateAdvancedRecommendations (user_id u) (setCurrentUser (Some u) s)).

(** A fired timer runs its callback. *)
Definition run (now : Z) (c : callback) (s : state) : state :=
  match c with
  | FinishRecommendations => finishRecommendations now s
  | GenerateRecommendations u => generateAdvancedRecommendations u s
  | DropNotification n => dropNotification n s
  end.

(** The timer at position [i] fires: it leaves the list and its callback
    runs. *)
Definition fire (now : Z) (i : nat) (s : state) : state :=
  match timers s !! i with
  | Some (_, c) =>
      run now c
        (State (currentUser s) (recommendations s) (cart s) (userBehavior s)
           (isLoading s) (modelTrainingStatus s) (notifications s)
           (delete i (timers s)) (random s))
  | None => s
  end.

(** What the page lets happen: a login, a button of a product card, the
    checkout, a timer. *)
Inductive step : state -> state -> Prop :=
| step_login now u s : step s (handleUserLogin now u s)
| step_interaction now productId ty s :
    step s (recordAdvancedInteraction now productId ty s)
| step_cart now p s : step s (addToCart now p s)
| step_checkout now s : step s (checkout now s)
| step_timer now i s : step s (fire now i s).

Inductive reachable : state -> Prop :=
| reachable_initial g : reachable (initial g)
| reachable_step s s' : reachable s -> step s s' -> reachable s'.

Definition cart_ids (c : list cart_item) : list Z :=
  map (fun i => product_id (item i)) c.


(** *** The rest of the page *)

(** What the checkout records for an entry of the cart. *)
Definition purchase_of (u : user) (now : Z) (i : cart_item) : behavior :=
  Behavior (user_id u) (product_id (item i)) "purchase" now.

(** The logout button. *)
Definition logout (now : Z) (s : state) : state :=
  addNotification now "👋 Logged out successfully" "info"
    (set_recommendations [] (setCurrentUser None s)).

(** The refresh button of the recommendations view, which is shown to a
    logged-in user: [generateAdvancedRecommendations(currentUser.id)]. *)
Definition refresh (s : state) : state :=
  match currentUser s with
  | Some u => generateAdvancedRecommendations (user_id u) s
  | None => s
  end.

(** Everything the page lets happen: the events of [step], the logout
    and the refresh. *)
Inductive event : state -> state -> Prop :=
| event_step s s' : step s s' -> event s s'
| event_logout now s : event s (logout now s)
| event_refresh s : event s (refresh s).

Inductive attainable : state -> Prop :=
| attainable_initial g : attainable (initial g)
| attainable_event s s' : attainable s -> event s s' -> attainable s'.

(** [s.includes(sub)] *)
Fixpoint includes (s sub : string) : bool :=
  String.prefix sub s
  || match s with
     | EmptyString => false
     | String _ s' => includes s' sub
     end.

Section Catalogue.

(** [String.prototype.toLowerCase], the library's. *)
Variable toLowerCase : string -> string.

(** The predicate of [products.filter(...)] in [filteredProducts]. *)
Definition matches (searchQuery filterCategory : string) (p : product)
  : bool :=
  let matchesSearch :=
    includes (toLowerCase (product_name p)) (toLowerCase searchQuery)
    || includes (toLowerCase (product_category p)) (toLowerCase searchQuery) in
  let matchesCategory :=
    String.eqb filterCategory "all"
    || String.eqb (product_category p) filterCategory in
  matchesSearch && matchesCategory.

Definition filteredProducts (products : list product)
    (searchQuery filterCategory : string) : list product :=
  List.filter (matches searchQuery filterCategory) products.

End Catalogue.

(** A session for examples. [Math.random] climbs from 0.1 to 0.9, the
    doubles of these literals, and starts over. Alex logs in, puts the headphones in the cart and checks
    out; the timers of the page then run. *)
Definition climbing : random_source float :=
  RandomSource
    (fun n => (PrimFloat.of_uint63 (Uint63.of_Z (1 + Z.of_nat (n mod 9)))
               / 10)%float) 0.

Definition alex : user :=
  User 1 "Alex Chen" "alex@example.com" "tech_enthusiast"
    ["electronics"; "gadgets"; "innovation"] 28 "San Francisco".

Definition headphones : product :=
  Product 1 "Wireless Bluetooth Headphones" "Electronics" (9999 # 100)
    (45 # 10) "🎧" "Premium noise-canceling headphones with 30hr battery"
    ["wireless"; "noise-canceling"; "premium"] "AudioTech" 45
    ["Active Noise Cancellation"; "30hr Battery"; "Quick Charge"] 1247
    None None.

Definition logged_in : state := handleUserLogin 1000 alex (initial climbing).

Definition with_cart : state := addToCart 2000 headphones logged_in.

Definition after_purchase : state := checkout 3000 with_cart.


End Frontend.

(** * The HTTP client, [frontend/src/services/api.js] *)

Module Api.

(** JSON values, as [response.json()] yields them and as the sample data is
    written. *)
Inductive json : Type :=
| JNull
| JBool (b : bool)
| JNum (q : Q)
| JStr (s : string)
| JArr (l : list json)
| JObj (fields : list (string * json)).

(** A JavaScript [Error] and its message. *)
Record error : Type := Error { error_message : string }.

(** What a [fetch] promise resolves to: [ok], [status], and the outcome of
    [response.json()], which rejects on a body that is not JSON. *)
Record response : Type := Response
  { ok : bool; status : Z; body_json : result error json }.

(** The [options] argument of [request]; an absent property is [None].
    [body] holds the value that was given to [JSON.stringify]. *)
Record options : Type := Options
  { headers : option (list (string * string));
    method : option string;
    body : option json }.

Definition no_options : options := Options None None None.

(** The world the client runs in: the build mode, and what [fetch] does
    with a request (a rejection is [Err]). *)
Record environment : Type := Environment
  { production : bool;
    fetch : string -> options -> result error response }.

(** The messages given to [console.error]. *)
Definition console : Type := list error.

(** An [async] method: it resolves or rejects, and may log. *)
Definition async (A : Type) : Type := console -> result error A * console.

Definition API_BASE_URL (env : environment) : string :=
  if production env then "https://your-domain.com/api"
  else "http://localhost:8000/api".

(** [`${n}`] for an integral number. *)
Definition number_to_string (n : Z) : string :=
  NilZero.string_of_int (Z.to_int n).

(** [config = { headers: { 'Content-Type': ..., ...options.headers },
    ...options }]: the spread of [options] comes last, so a [headers]
    property of [options] replaces the merged one. *)
Definition config_of (o : options) : options :=
  Options
    (match headers o with
     | Some h => Some h
     | None => Some [("Content-Type", "application/json")]
     end)
    (method o) (body o).

(** [async request(endpoint, options = {})] *)
Definition request (env : environment) (endpoint : string) (o : options)
  : async json :=
  fun log =>
    let url := (API_BASE_URL env ++ endpoint)%string in
    let config := config_of o in
    match fetch env url config with
    | Err e => (Err e, log ++ [e])
    | Ok r =>
        if negb (ok r) then
          let e :=
            Error ("HTTP error! status: " ++ number_to_string (status r)) in
          (Err e, log ++ [e])
        else
          match body_json r with
          | Ok v => (Ok v, log)
          | Err e => (Err e, log ++ [e])
          end
    end.

(** [async getRecommendations(userId, count = 10)] *)
Definition getRecommendations (env : environment) (userId : Z)
    (count : option Z) : async json :=
  let count := default 10%Z count in
  request env
    ("/recommendations/" ++ number_to_string userId ++ "/?count="
       ++ number_to_string count)
    no_options.

(** [async recordInteraction(userId, productId, interactionType)] *)
Definition recordInteraction (env : environment) (userId productId : Z)
    (interactionType : string) : async json :=
  request env "/interaction/"
    (Options None (Some "POST")
       (Some (JObj [("user_id", JNum (inject_Z userId));
                    ("product_id", JNum (inject_Z productId));
                    ("interaction_type", JStr interactionType)]))).

(** The serialiser of [URLSearchParams]: form-urlencoding of a string's
    bytes. *)
Definition hex_digit (n : N) : ascii :=
  ascii_of_N (if (n <? 10)%N then 48 + n else 55 + n).

Definition unreserved (c : ascii) : bool :=
  let n := N_of_ascii c in
  ((48 <=? n) && (n <=? 57) || (65 <=? n) && (n <=? 90)
   || (97 <=? n) && (n <=? 122)
   || (n =? 42) || (n =? 45) || (n =? 46) || (n =? 95))%N.

Fixpoint urlencode (s : string) : string :=
  match s with
  | EmptyString => EmptyString
  | String c s =>
      if unreserved c then String c (urlencode s)
      else if (N_of_ascii c =? 32)%N then String "+" (urlencode s)
      else String "%" (String (hex_digit (N_of_ascii c / 16))
                         (String (hex_digit (N_of_ascii c mod 16))
                            (urlencode s)))
  end.

(** [async searchProducts(query, userId = null)]; [if (userId)] holds for
    a number other than 0. *)
Definition searchProducts (env : environment) (query : string)
    (userId : option Z) : async json :=
  let params := ("q=" ++ urlencode query)%string in
  let params :=
    match userId with
    | Some u =>
        if (u =? 0)%Z then params
        else (params ++ "&user_id=" ++ number_to_string u)%string
    | None => params
    end in
  request env ("/search/?" ++ params) no_options.

(** [async trainModels()] *)
Definition trainModels (env : environment) : async json :=
  request env "/train/" (Options None (Some "POST") None).

Definition sample (id : Z) (name category : string) (price : Q)
    (description : string) : json :=
  JObj [("id", JNum (inject_Z id)); ("name", JStr name);
        ("category", JStr category); ("price", JNum price);
        ("description", JStr description)].

(** The object [getAllProducts] returns when the backend is not
    available. *)
Definition sample_data : json :=
  JObj
    [("products",
      JArr
        [sample 1 "Wireless Bluetooth Headphones" "Electronics"
           (9999 # 100) "Premium noise-canceling headphones";
         sample 2 "Smart Fitness Watch" "Electronics" (19999 # 100)
           "Track your health and fitness goals";
         sample 3 "Organic Cotton T-Shirt" "Clothing" (2999 # 100)
           "Comfortable and sustainable fashion";
         sample 4 "Premium Coffee Beans" "Food" (2499 # 100)
           "Single-origin artisan roasted coffee";
         sample 5 "Yoga Mat Pro" "Sports" (5999 # 100)
           "Non-slip premium yoga mat"]);
     ("count", JNum 5)].

(** [async getAllProducts()]: the [try] awaits the search, so its
    rejection reaches the [catch]. *)
Definition getAllProducts (env : environment) : async json :=
  fun log =>
    match searchProducts env "" None log with
    | (Ok v, log) => (Ok v, log)
    | (Err _, log) => (Ok sample_data, log)
    end.

(** Reading a property of an object, and the length of an array. *)
Definition get (k : string) (v : json) : option json :=
  match v with
  | JObj fields => snd <$> find (fun kv => String.eqb (fst kv) k) fields
  | _ => None
  end.

Definition array_length (v : json) : option nat :=
  match v with JArr l => Some (length l) | _ => None end.

(** The response a [fetch] must give for [request] to resolve: an ok
    status and a body that is JSON. *)
Definition delivers (env : environment) (url : string) (o : options)
    (v : json) : Prop :=
  exists r, fetch env url (config_of o) = Ok r /\ ok r = true /\
            body_json r = Ok v.

(** The address [getRecommendations] asks for. *)
Definition recommendations_url (env : environment) (userId : Z)
    (count : option Z) : string :=
  (API_BASE_URL env ++ "/recommendations/" ++ number_to_string userId
     ++ "/?count=" ++ number_to_string (default 10%Z count))%string.

(** The endpoint [searchProducts] asks for. *)
Definition search_endpoint (query : string) (userId : option Z) : string :=
  let params := ("q=" ++ urlencode query)%string in
  let params :=
    match userId with
    | Some u =>
        if (u =? 0)%Z then params
        else (params ++ "&user_id=" ++ number_to_string u)%string
    | None => params
    end in
  ("/search/?" ++ params)%string.

(** The user id that reaches the endpoint: [null] and 0 do not. *)
Definition sent_user (userId : option Z) : option Z :=
  match userId with
  | Some u => if (u =? 0)%Z then None else Some u
  | None => None
  end.

(** The characters a serialised parameter is made of. *)
Definition url_safe (c : ascii) : bool :=
  unreserved c || Ascii.eqb c "+" || Ascii.eqb c "%".

(** Reading a serialised parameter back, as the receiving side parses
    a form-encoded query string: a plus is a space, a percent sign with
    two hexadecimal digits is a byte.  It is the inverse of [urlencode]
    and serves to state that serialising loses nothing. *)
Definition hex_digit_value (c : ascii) : option N :=
  let n := N_of_ascii c in
  if ((48 <=? n) && (n <=? 57))%N then Some (n - 48)%N
  else if ((65 <=? n) && (n <=? 70))%N then Some (n - 55)%N
  else if ((97 <=? n) && (n <=? 102))%N then Some (n - 87)%N
  else None.

Fixpoint urldecode (s : string) : string :=
  match s with
  | EmptyString => EmptyString
  | String c r =>
      if Ascii.eqb c "+" then String " " (urldecode r)
      else if Ascii.eqb c "%" then
        match r with
        | String h (String l r') =>
            match hex_digit_value h, hex_digit_value l with
            | Some a, Some b => String (ascii_of_N (16 * a + b)) (urldecode r')
            | _, _ => String c (urldecode r)
            end
        | _ => String c (urldecode r)
        end
      else String c (urldecode r)
  end.

(** Two backends for examples: one that answers every request with
    status 500, one that cannot be reached. *)
Definition failing_backend : environment :=
  Environment false (fun _ _ => Ok (Response false 500 (Ok JNull))).

Definition unreachable_backend : environment :=
  Environment false (fun _ _ => Err (Error "Failed to fetch")).

(** And one that answers every request as the interaction view answers
    a recorded interaction. *)
Definition recorded : json :=
  JObj [("message", JStr "Interaction recorded successfully")].

Definition accepting_backend : environment :=
  Environment false (fun _ _ => Ok (Response true 201 (Ok recorded))).

(** What [recordInteraction] hands to [request]. *)
Definition interaction_options (userId productId : Z)
    (interactionType : string) : options :=
  Options None (Some "POST")
    (Some (JObj [("user_id", JNum (inject_Z userId));
                 ("product_id", JNum (inject_Z productId));
                 ("interaction_type", JStr interactionType)])).

End Api.

(** * The recommendation engine (Python), as the technical documentation
      in [frontend/src/App.js] shows it *)

Module Engine.

(** Exceptions raised by the modelled Python code: an index outside an
    array, or any other, by the name of its class. *)
Inductive exception : Type :=
| IndexError
| Raised (class : string).

(** ** 5.2 Feature engineering *)

(** [score_map]: the interaction-weight table. *)
Definition score_map : gmap string Z :=
  list_to_map [("view", 1%Z); ("like", 2%Z); ("cart", 3%Z); ("purchase", 5%Z)].



(** A row of [UserBehavior] (section 6.3.2). *)
Record UserBehavior : Type := Row
  { user_id : Z;
    product_id : Z;
    interaction_type : string;
    rating : option Q;
    timestamp : Z }.






(** ** 10.3 and 10.4: serving recommendations *)

(** A row of [Product] (section 6.3.1). *)
Record Product : Type := MkProduct
  { id : Z; name : string; category : string; price : Q; created_at : Z }.

(** An element of the list [get_recommendations] returns: the keys
    ['product_id'], ['product_name'], ['category'], ['price'] and
    ['confidence_score']. *)
Record recommendation : Type := Recommendation
  { rec_product_id : Z;
    product_name : string;
    rec_category : string;
    rec_price : Q;
    confidence_score : float }.

(** A trained model's [predict(user_id, candidates)]: a numpy array
    with one score, a double, for each candidate, which may depend on
    all of them. *)
Definition predictor : Type := Z -> list Product -> Product -> float.

Definition predict (m : predictor) (user : Z) (candidates : list Product)
  : list float :=
  map (m user candidates) candidates.

(** Django's cache: a value and the clock reading at which it expires. *)
Record entry : Type := Entry
  { value : list recommendation; expires : Z }.

(** The engine, its database tables and the cache. [products] lists the
    table in the order a query yields it. *)
Record state : Type := State
  { products : list Product;
    behaviors : list UserBehavior;
    cache : gmap string entry;
    collaborative_filtering_model : predictor;
    matrix_factorization_model : predictor }.

Definition set_cache (c : gmap string entry) (s : state) : state :=
  State (products s) (behaviors s) c (collaborative_filtering_model s)
        (matrix_factorization_model s).
Definition set_behaviors (b : list UserBehavior) (s : state) : state :=
  State (products s) b (cache s) (collaborative_filtering_model s)
        (matrix_factorization_model s).
Definition set_models (cf mf : predictor) (s : state) : state :=
  State (products s) (behaviors s) (cache s) cf mf.

(** [cache.get(key)] at clock reading [now]. *)
Definition cache_get (now : Z) (key : string) (c : gmap string entry)
  : option (list recommendation) :=
  match c !! key with
  | Some e => if (now <? expires e)%Z then Some (value e) else None
  | None => None
  end.

(** [cache.set(key, value, timeout)] *)
Definition cache_set (now : Z) (key : string) (v : list recommendation)
    (timeout : Z) (c : gmap string entry) : gmap string entry :=
  <[key := Entry v (now + timeout)]> c.

(** [cache.delete_pattern(prefix + "*")]: the keys that start with the
    text before the star go. *)
Definition delete_pattern (prefix : string) (c : gmap string entry)
  : gmap string entry :=
  filter (fun kv => String.prefix prefix (fst kv) = false) c.

Definition number_to_string (n : Z) : string :=
  NilZero.string_of_int (Z.to_int n).

(** [f"recommendations_user_{user_id}_{num_recommendations}"] *)
Definition cache_key (user num_recommendations : Z) : string :=
  ("recommendations_user_" ++ number_to_string user ++ "_"
     ++ number_to_string num_recommendations)%string.

(** [sorted(pairs, key=lambda x: x[1], reverse=True)]: Python's sort
    compares keys with [<] alone and is stable, also in reverse. Where
    [<] orders the keys, that is when none is a NaN, the list it returns
    is the one by falling key in which pairs that [<] does not tell apart
    keep their order, and that list is built here: a pair goes behind
    the pairs with a greater key and in front of the rest. With a NaN
    among the keys Python's result hangs on the run of its merge sort,
    which this does not follow. *)
Fixpoint insert_reverse {A} (x : A * float) (l : list (A * float))
  : list (A * float) :=
  match l with
  | [] => [x]
  | y :: l' =>
      if (snd x <? snd y)%float then y :: insert_reverse x l'
      else x :: l
  end.

Definition sorted_reverse {A} (l : list (A * float)) : list (A * float) :=
  foldr insert_reverse [] l.

(** The place of a number in the order of [<] on doubles: its class
    (from negative infinity to positive infinity), then its exponent and
    mantissa. A NaN has no place; the two zeros have the same. *)
Definition rank (f : spec_float) : option (Z * Z * Z) :=
  match f with
  | S754_nan => None
  | S754_infinity true => Some (-2, 0, 0)%Z
  | S754_finite true m e => Some (-1, - e, Z.neg m)%Z
  | S754_zero _ => Some (0, 0, 0)%Z
  | S754_finite false m e => Some (1, e, Z.pos m)%Z
  | S754_infinity false => Some (2, 0, 0)%Z
  end.

Definition lex_lt (a b : Z * Z * Z) : Prop :=
  let '(a1, a2, a3) := a in
  let '(b1, b2, b3) := b in
  (a1 < b1 \/ (a1 = b1 /\ (a2 < b2 \/ (a2 = b2 /\ a3 < b3))))%Z.

(** [l[:n]]: a negative [n] counts from the end. *)
Definition slice_to {A} (n : Z) (l : list A) : list A :=
  if (0 <=? n)%Z then firstn (Z.to_nat n) l
  else firstn (length l - Z.to_nat (- n)) l.

(** [Product.objects.exclude(id__in=interacted_products)] *)
Definition exclude (interacted : list Z) (ps : list Product) : list Product :=
  filter (fun p => id p ∉ interacted) ps.

Definition format (x : Product * float) : recommendation :=
  Recommendation (id (fst x)) (name (fst x)) (category (fst x))
                 (price (fst x)) (snd x).

(** [0.7 * cf_scores + 0.3 * mf_scores]: numpy's arithmetic on arrays
    of doubles, element by element. *)
Definition ensemble (cf_scores mf_scores : list float) : list float :=
  zip_with (fun cf mf => (0.7 * cf + 0.3 * mf)%float) cf_scores mf_scores.

(** [get_recommendations] below its cache check: candidates, scores,
    ranking, top N, response. *)
Definition compute_recommendations (user num_recommendations : Z)
    (s : state) : list recommendation :=
  let user_interactions :=
    filter (fun b => user_id b = user) (behaviors s) in
  let interacted_products := map product_id user_interactions in
  let candidates := exclude interacted_products (products s) in
  let cf_scores := predict (collaborative_filtering_model s) user candidates in
  let mf_scores := predict (matrix_factorization_model s) user candidates in
  let final_scores := ensemble cf_scores mf_scores in
  let ranked_products := sorted_reverse (zip candidates final_scores) in
  let top_products := slice_to num_recommendations ranked_products in
  map format top_products.

(** [get_recommendations(self, user_id, num_recommendations=10)]: the
    list returned and the state left. [if cached] fails for an absent or
    expired entry and for an empty list. *)
Definition get_recommendations (now : Z) (user num_recommendations : Z)
    (s : state) : list recommendation * state :=
  let cache_key := cache_key user num_recommendations in
  match cache_get now cache_key (cache s) with
  | Some (r :: cached) => (r :: cached, s)
  | _ =>
      let recommendations := compute_recommendations user num_recommendations s in
      (recommendations,
       set_cache (cache_set now cache_key recommendations 1800 (cache s)) s)
  end.

(** The parts of [compute_recommendations] by name. *)
Definition interacted_products (user : Z) (s : state) : list Z :=
  map product_id (filter (fun b => user_id b = user) (behaviors s)).

Definition candidates (user : Z) (s : state) : list Product :=
  exclude (interacted_products user s) (products s).

Definition scored (user : Z) (s : state) : list (Product * float) :=
  let c := candidates user s in
  zip c (ensemble (predict (collaborative_filtering_model s) user c)
                  (predict (matrix_factorization_model s) user c)).

(** The order of a ranking: no later pair has a higher score. *)
Definition descending {A} (x y : A * float) : Prop :=
  (snd y <=? snd x)%float = true.


(** The pairs, and the recommendations, that have a given score: those
    that [==] on doubles finds equal to it. *)
Definition tied {A} (q : float) (x : A * float) : Prop :=
  (snd x =? q)%float = true.

Definition scores (q : float) (r : recommendation) : Prop :=
  (confidence_score r =? q)%float = true.

#[global] Instance tied_decision {A} q (x : A * float) : Decision (tied q x).
Proof. unfold tied. apply _. Defined.

#[global] Instance scores_decision q r : Decision (scores q r).
Proof. unfold scores. apply _. Defined.

(** Whether [get_recommendations] answers from the cache. *)
Definition served_from_cache (now : Z) (user num_recommendations : Z)
    (s : state) : bool :=
  match cache_get now (cache_key user num_recommendations) (cache s) with
  | Some (_ :: _) => true
  | _ => false
  end.

(** [retrain_models()]: [train] stands for [engine.train_models()]. *)
Definition retrain_models (train : state -> predictor * predictor)
    (s : state) : state :=
  let '(cf, mf) := train s in
  set_cache (delete_pattern "recommendations_" (cache s)) (set_models cf mf s).

(** [precompute_recommendations(user_id)] *)
Definition precompute_recommendations (now : Z) (user : Z) (s : state)
  : state :=
  let '(recommendations, s) := get_recommendations now user 10 s in
  set_cache (cache_set now (cache_key user 10) recommendations 3600 (cache s)) s.

(** Modelled from the spec: [recommendation_engine.record_interaction],
    which [InteractionAPIView.post] calls and whose code the repository's
    files do not contain. Section 4.7: a new interaction recorded for a
    user invalidates all cache entries keyed to that user_id, whatever
    their count. *)
Definition record_interaction (user product : Z) (ty : string) (s : state)
  : state :=
  set_cache
    (delete_pattern ("recommendations_user_" ++ number_to_string user ++ "_")
       (cache s)) s.

(** An HTTP response of a view: the status and, for an error, its text. *)
Inductive http_response : Type :=
| Created (message : string)
| BadRequest (error : string)
| ServerError (error : string).

(** [InteractionAPIView.post] (section 7.2.2) on the request's [user_id],
    [product_id], [interaction_type] and [rating]; a missing field is
    [None]. [all([...])] fails for a missing field, for 0 and for the
    empty string. [database] is what [UserBehavior.objects.create] meets:
    it answers with the text of the exception when the database turns the
    row away (a foreign key, the CHECK of section 6.2.2), and the view
    then answers 500. The view itself compares [interaction_type] with
    nothing. *)
Definition post (database : UserBehavior -> option string) (now : Z)
    (user product : option Z) (ty : option string) (rating : option Q)
    (s : state) : http_response * state :=
  match user, product, ty with
  | Some u, Some p, Some t =>
      if ((u =? 0) || (p =? 0))%Z || String.eqb t ""
      then (BadRequest "user_id, product_id, and interaction_type are required", s)
      else
        match database (Row u p t rating now) with
        | Some e => (ServerError e, s)
        | None =>
            let s := set_behaviors (behaviors s ++ [Row u p t rating now]) s in
            (Created "Interaction recorded successfully",
             record_interaction u p t s)
        end
  | _, _, _ =>
      (BadRequest "user_id, product_id, and interaction_type are required", s)
  end.

(** ** Requests and tasks under way *)

(** Who calls [get_recommendations]: a request, with its count, or
    [precompute_recommendations], which leaves the count at its default
    of 10. *)
Inductive caller : Type :=
| Request (num_recommendations : Z)
| Task.

Definition count (c : caller) : Z :=
  match c with
  | Request n => n
  | Task => 10%Z
  end.

(** What a call that has started has still to do. The web server and
    the Celery workers run side by side, so between two lines of one call
    the lines of others may run.
    - [Computing]: [get_recommendations] has found no list in the cache
      (lines 2011 to 2013) and has yet to query and rank (2016 to 2043);
    - [Setting]: it has its list and has yet to call [cache.set] (2046);
    - [Storing]: [precompute_recommendations] has the list that its
      [get_recommendations] returned (2157) and has yet to call
      [cache.set] (2161). *)
Inductive job : Type :=
| Computing (user : Z) (c : caller)
| Setting (user : Z) (c : caller) (recommendations : list recommendation)
| Storing (user : Z) (recommendations : list recommendation).

(** The tables, models and cache, and the calls under way. *)
Record world : Type := World
  { store : state;
    in_flight : list job }.

(** The cache check of [get_recommendations]: what the call has to do
    after it. A request that finds a list returns it and is over; the
    task goes on with the list it found. *)
Definition start (now : Z) (user : Z) (c : caller) (s : state) : list job :=
  match cache_get now (cache_key user (count c)) (cache s) with
  | Some (r :: cached) =>
      match c with
      | Request _ => []
      | Task => [Storing user (r :: cached)]
      end
  | _ => [Computing user c]
  end.

(** After its [cache.set], [get_recommendations] returns: a request is
    over, the task goes on with the list. *)
Definition finish (user : Z) (c : caller)
    (recommendations : list recommendation) : list job :=
  match c with
  | Request _ => []
  | Task => [Storing user recommendations]
  end.

(** What happens between two moments: the view records an interaction,
    the models are retrained, a call starts with its cache check, or a
    call under way runs its next part, at the clock reading of that part.
    The two lines of [InteractionAPIView.post] and the lines of
    [retrain_models] are taken together. *)
Inductive step : world -> world -> Prop :=
| step_post database now user product ty rating w :
    step w (World (snd (post database now user product ty rating (store w)))
                  (in_flight w))
| step_retrain train w :
    step w (World (retrain_models train (store w)) (in_flight w))
| step_start now user c w :
    step w (World (store w) (in_flight w ++ start now user c (store w)))
| step_compute user c s before after :
    step (World s (before ++ Computing user c :: after))
         (World s
            (before
               ++ Setting user c (compute_recommendations user (count c) s)
               :: after))
| step_set now user c recommendations s before after :
    step (World s (before ++ Setting user c recommendations :: after))
         (World
            (set_cache
               (cache_set now (cache_key user (count c)) recommendations 1800
                  (cache s)) s)
            (before ++ finish user c recommendations ++ after))
| step_store now user recommendations s before after :
    step (World s (before ++ Storing user recommendations :: after))
         (World
            (set_cache
               (cache_set now (cache_key user 10) recommendations 3600
                  (cache s)) s)
            (before ++ after)).




(** Whether a character occurs in a string. *)
Fixpoint occurs (c : ascii) (s : string) : bool :=
  match s with
  | EmptyString => false
  | String x s => if Ascii.eqb x c then true else occurs c s
  end.

(** ** 11.3.1 The A/B testing framework *)

(** [hashlib.md5(data).hexdigest()]: RFC 1321 on bytes, 32-bit words
    being integers below [2 ^ 32]. *)
Definition u32 (x : Z) : Z := (x mod 2 ^ 32)%Z.

Definition rotl32 (x c : Z) : Z :=
  u32 (Z.lor (Z.shiftl x c) (Z.shiftr x (32 - c))).

Definition not32 (x : Z) : Z := Z.lxor x 0xffffffff.

Definition md5_shifts : list Z :=
  [7; 12; 17; 22; 7; 12; 17; 22; 7; 12; 17; 22; 7; 12; 17; 22;
   5; 9; 14; 20; 5; 9; 14; 20; 5; 9; 14; 20; 5; 9; 14; 20;
   4; 11; 16; 23; 4; 11; 16; 23; 4; 11; 16; 23; 4; 11; 16; 23;
   6; 10; 15; 21; 6; 10; 15; 21; 6; 10; 15; 21; 6; 10; 15; 21]%Z.

Definition md5_sines : list Z :=
  [0xd76aa478; 0xe8c7b756; 0x242070db; 0xc1bdceee; 0xf57c0faf; 0x4787c62a;
   0xa8304613; 0xfd469501; 0x698098d8; 0x8b44f7af; 0xffff5bb1; 0x895cd7be;
   0x6b901122; 0xfd987193; 0xa679438e; 0x49b40821; 0xf61e2562; 0xc040b340;
   0x265e5a51; 0xe9b6c7aa; 0xd62f105d; 0x02441453; 0xd8a1e681; 0xe7d3fbc8;
   0x21e1cde6; 0xc33707d6; 0xf4d50d87; 0x455a14ed; 0xa9e3e905; 0xfcefa3f8;
   0x676f02d9; 0x8d2a4c8a; 0xfffa3942; 0x8771f681; 0x6d9d6122; 0xfde5380c;
   0xa4beea44; 0x4bdecfa9; 0xf6bb4b60; 0xbebfbc70; 0x289b7ec6; 0xeaa127fa;
   0xd4ef3085; 0x04881d05; 0xd9d4d039; 0xe6db99e5; 0x1fa27cf8; 0xc4ac5665;
   0xf4292244; 0x432aff97; 0xab9423a7; 0xfc93a039; 0x655b59c3; 0x8f0ccc92;
   0xffeff47d; 0x85845dd1; 0x6fa87e4f; 0xfe2ce6e0; 0xa3014314; 0x4e0811a1;
   0xf7537e82; 0xbd3af235; 0x2ad7d2bb; 0xeb86d391]%Z.

(** The [n] low bytes of [x], lowest first. *)
Definition le_bytes (n : nat) (x : Z) : list Z :=
  map (fun i => (Z.shiftr x (8 * Z.of_nat i) mod 256)%Z) (seq 0 n).

Fixpoint le_word (bs : list Z) : Z :=
  match bs with
  | [] => 0%Z
  | b :: bs => (b + 256 * le_word bs)%Z
  end.

Fixpoint le_words (n : nat) (bs : list Z) : list Z :=
  match n with
  | O => []
  | S n => le_word (firstn 4 bs) :: le_words n (skipn 4 bs)
  end.

(** The message, a 1 bit, zeros up to 56 modulo 64 bytes, and the length
    in bits as 8 bytes. *)
Definition md5_pad (msg : list Z) : list Z :=
  let len := Z.of_nat (length msg) in
  msg ++ [0x80%Z] ++ repeat 0%Z (Z.to_nat ((55 - len) mod 64))
      ++ le_bytes 8 ((8 * len) mod 2 ^ 64).

Definition md5_step (M : list Z) (st : Z * Z * Z * Z) (i : nat)
  : Z * Z * Z * Z :=
  let '(A, B, C, D) := st in
  let iz := Z.of_nat i in
  let '(F, g) :=
    if (iz <? 16)%Z then
      (Z.lor (Z.land B C) (Z.land (not32 B) D), iz)
    else if (iz <? 32)%Z then
      (Z.lor (Z.land D B) (Z.land (not32 D) C), ((5 * iz + 1) mod 16)%Z)
    else if (iz <? 48)%Z then
      (Z.lxor (Z.lxor B C) D, ((3 * iz + 5) mod 16)%Z)
    else
      (Z.lxor C (Z.lor B (not32 D)), ((7 * iz) mod 16)%Z) in
  let F := u32 (F + A + nth i md5_sines 0 + nth (Z.to_nat g) M 0)%Z in
  (D, u32 (B + rotl32 F (nth i md5_shifts 0))%Z, B, C).

Definition md5_block (h : Z * Z * Z * Z) (block : list Z) : Z * Z * Z * Z :=
  let M := le_words 16 block in
  let '(a0, b0, c0, d0) := h in
  let '(A, B, C, D) := fold_left (md5_step M) (seq 0 64) h in
  (u32 (a0 + A), u32 (b0 + B), u32 (c0 + C), u32 (d0 + D)).

Fixpoint md5_blocks (n : nat) (h : Z * Z * Z * Z) (bs : list Z)
  : Z * Z * Z * Z :=
  match n with
  | O => h
  | S n => md5_blocks n (md5_block h (firstn 64 bs)) (skipn 64 bs)
  end.

Definition md5 (msg : list Z) : list Z :=
  let p := md5_pad msg in
  let '(a, b, c, d) :=
    md5_blocks (length p / 64)
      (0x67452301, 0xefcdab89, 0x98badcfe, 0x10325476)%Z p in
  le_bytes 4 a ++ le_bytes 4 b ++ le_bytes 4 c ++ le_bytes 4 d.

(** [str.encode()]: the bytes of the string. *)
Definition encode (s : string) : list Z :=
  map (fun c => Z.of_N (N_of_ascii c)) (list_ascii_of_string s).

Definition hex_char (n : Z) : ascii :=
  ascii_of_N (Z.to_N (if (n <? 10)%Z then 48 + n else 87 + n)).

Definition hexdigest (bs : list Z) : string :=
  string_of_list_ascii
    (flat_map (fun b => [hex_char (b / 16); hex_char (b mod 16)]) bs).

(** [int(text, 16)] on a text of hexadecimal digits. *)
Definition hex_value (c : ascii) : Z :=
  let n := Z.of_N (N_of_ascii c) in
  if (n <? 58)%Z then (n - 48)%Z
  else if (n <? 97)%Z then (n - 55)%Z
  else (n - 87)%Z.

Definition int16 (s : string) : Z :=
  fold_left (fun acc c => (16 * acc + hex_value c)%Z)
    (list_ascii_of_string s) 0%Z.

(** [ABTestFramework.assign_user_to_variant(self, user_id,
    experiment_name)]: the instance is not read. *)
Definition assign_user_to_variant (user : Z) (experiment_name : string)
  : string :=
  let hash_value :=
    hexdigest
      (md5 (encode (number_to_string user ++ "_" ++ experiment_name)%string)) in
  if (int16 hash_value mod 2 =? 0)%Z then "A" else "B".

(** ** 5.1.2 Matrix factorisation *)

Definition vector : Type := list float.
Definition matrix : Type := list vector.

(** numpy's arithmetic on a scalar and an array, and on two arrays. *)
Definition scale (c : float) (v : vector) : vector :=
  map (fun x => (c * x)%float) v.
Definition vsub (v w : vector) : vector :=
  zip_with (fun x y => (x - y)%float) v w.
Definition vadd (v w : vector) : vector :=
  zip_with (fun x y => (x + y)%float) v w.

(** [np.random.normal(0, 0.1, (rows, cols))]: the global generator is a
    stream of such draws; the array is filled row by row. *)
Fixpoint normal_vector (cols : nat) (g : random_source float)
  : vector * random_source float :=
  match cols with
  | O => ([], g)
  | S cols =>
      let '(x, g) := next_draw g in
      let '(v, g) := normal_vector cols g in
      (x :: v, g)
  end.

Fixpoint normal_matrix (rows cols : nat) (g : random_source float)
  : matrix * random_source float :=
  match rows with
  | O => ([], g)
  | S rows =>
      let '(v, g) := normal_vector cols g in
      let '(m, g) := normal_matrix rows cols g in
      (v :: m, g)
  end.

(** The attributes of [MatrixFactorizationModel] that [fit] touches. *)
Record model : Type := Model
  { n_factors : nat; user_factors : matrix; item_factors : matrix }.

(** The names [fit] reads without defining them. *)
Record settings : Type := Settings
  { n_users : nat;
    n_items : nat;
    learning_rate : float;
    regularization : float;
    training_data : list (nat * nat * float) }.

Section Fit.

(** [self.predict_single(user_idx, item_idx)], which the documentation
    does not show: any function of the model and the two indices. *)
Variable predict_single : model -> nat -> nat -> result exception float.

(** The body of the inner loop for one triple. *)
Definition sgd_step (cfg : settings) (self : model)
    (triple : nat * nat * float) : result exception model :=
  let '(user_idx, item_idx, rating) := triple in
  match predict_single self user_idx item_idx with
  | Err e => Err e
  | Ok prediction =>
      let error := (rating - prediction)%float in
      match user_factors self !! user_idx, item_factors self !! item_idx with
      | Some user_factor, Some item_factor =>
          let U :=
            <[user_idx :=
                vadd user_factor
                  (scale (learning_rate cfg)
                     (vsub (scale error item_factor)
                        (scale (regularization cfg) user_factor)))]>
              (user_factors self) in
          let V :=
            <[item_idx :=
                vadd item_factor
                  (scale (learning_rate cfg)
                     (vsub (scale error user_factor)
                        (scale (regularization cfg) item_factor)))]>
              (item_factors self) in
          Ok (Model (n_factors self) U V)
      | _, _ => Err IndexError
      end
  end.

Fixpoint sgd_epoch (cfg : settings) (self : model)
    (data : list (nat * nat * float)) : result exception model :=
  match data with
  | [] => Ok self
  | t :: data =>
      match sgd_step cfg self t with
      | Ok self => sgd_epoch cfg self data
      | Err e => Err e
      end
  end.

Fixpoint sgd (cfg : settings) (epochs : nat) (self : model)
  : result exception model :=
  match epochs with
  | O => Ok self
  | S epochs =>
      match sgd_epoch cfg self (training_data cfg) with
      | Ok self => sgd cfg epochs self
      | Err e => Err e
      end
  end.

(** [fit(self, df, epochs=20)]: the model left (or the exception raised)
    and the generator after the two initialisations. *)
Definition fit (cfg : settings) (epochs : Z) (g : random_source float)
    (self : model) : result exception model * random_source float :=
  let '(U, g) := normal_matrix (n_users cfg) (n_factors self) g in
  let '(V, g) := normal_matrix (n_items cfg) (n_factors self) g in
  (sgd cfg (Z.to_nat epochs) (Model (n_factors self) U V), g).

End Fit.

(** A matrix of [rows] rows of [cols] entries each, and a triple whose
    indices are rows of the two factor matrices. *)
Definition shaped (rows cols : nat) (m : matrix) : Prop :=
  length m = rows /\ Forall (fun v => length v = cols) m.

Definition in_range (cfg : settings) (triple : nat * nat * float) : Prop :=
  (fst (fst triple) < n_users cfg)%nat /\ (snd (fst triple) < n_items cfg)%nat.

(** A model whose factors are [n_users] and [n_items] rows of [k]. *)
Definition fitted (cfg : settings) (k : nat) (self : model) : Prop :=
  n_factors self = k /\ shaped (n_users cfg) k (user_factors self) /\
  shaped (n_items cfg) k (item_factors self).

(** The prediction of section 5.1.2, [R ≈ U × V^T]: the dot product of
    the two factor rows. *)
Definition dot (v w : vector) : float :=
  fold_left (fun acc xy => (acc + fst xy * snd xy)%float) (zip v w) 0%float.

Definition predict_dot (self : model) (user_idx item_idx : nat)
  : result exception float :=
  match user_factors self !! user_idx, item_factors self !! item_idx with
  | Some u, Some v => Ok (dot u v)
  | _, _ => Err IndexError
  end.

(** ** Examples *)

(** Two products, the newer first as [ordering = ['-created_at']] lists
    them, no interaction yet, an empty cache, and models that give every
    candidate the same score. *)
Definition watch : Product :=
  MkProduct 2 "Smart Fitness Watch" "Electronics" (19999 # 100) 200.
Definition headphones : Product :=
  MkProduct 1 "Wireless Bluetooth Headphones" "Electronics" (9999 # 100) 100.

Definition indifferent : predictor := fun _ _ _ => 0.5%float.

(** Two models that disagree: one gives the headphones 3 and every other
    product 0, the other gives the watch 7 and every other product 0. *)
Definition prefers_headphones : predictor :=
  fun _ _ p => if (id p =? 1)%Z then 3%float else 0%float.
Definition prefers_watch : predictor :=
  fun _ _ p => if (id p =? 2)%Z then 7%float else 0%float.

Definition shop : state := State [watch; headphones] [] ∅ indifferent indifferent.

(** The same products, the headphones listed first, under the two models
    that disagree. *)
Definition divided : state :=
  State [headphones; watch] [] ∅ prefers_headphones prefers_watch.

(** User 7 has asked for ten recommendations, so the cache holds them;
    then buys the watch. *)
Definition warm : state := snd (get_recommendations 0 7 10 shop).

Definition lenient : UserBehavior -> option string := fun _ => None.

Definition bought : state :=
  snd (post lenient 100 (Some 7%Z) (Some 2%Z) (Some "purchase") None warm).

(** A run in which a list from before a purchase reaches the cache
    after it. Over the shop, the cache empty, the precomputation for user
    7 starts, ranks both products and caches them; the user buys the
    watch, and the view empties the user's cache entries; then the task
    stores its list for an hour. *)
Definition both : list recommendation := compute_recommendations 7 10 shop.

Definition task_started : world := World shop [Computing 7 Task].

Definition task_ranked : world := World shop [Setting 7 Task both].




(** A generator for examples: the draws 0.01, 0.02, ..., 0.07 and again. *)
Definition cycling : random_source float :=
  RandomSource
    (fun n => (PrimFloat.of_uint63 (Uint63.of_Z (1 + Z.of_nat (n mod 7)))
               / 100)%float) 0.

(** The same draws from a later position: the stream repeats after 7. *)
Definition cycling_later : random_source float :=
  RandomSource (draws cycling) 7.

(** The first user factor of a training outcome. *)
Definition first_factor (r : result exception model) : float :=
  match r with
  | Ok m => hd 0%float (hd [] (user_factors m))
  | Err _ => 0%float
  end.

(** Two users, two items, two factors, three ratings. *)
Definition small : settings :=
  Settings 2 2 0.01%float 0.02%float
    [(0, 0, 5%float); (1, 0, 3%float); (1, 1, 1%float)]%nat.

End Engine.

(** * What the specification asks for, in its own words *)

Module Spec.

(** Section 4.6: candidates sorted by blended score, highest first, a tie
    broken by ascending item_id. *)
Definition before (a b : Engine.recommendation) : Prop :=
  (Engine.confidence_score b <? Engine.confidence_score a)%float = true \/
  ((Engine.confidence_score a =? Engine.confidence_score b)%float = true /\
   (Engine.rec_product_id a < Engine.rec_product_id b)%Z).


(** Section 4.8: a point of [0, 1) (the reduced hash) falls in one of the
    cumulative traffic_allocation buckets, which are as wide as the
    fractions of the variants. *)
Fixpoint bucket_of (traffic_allocation : list (string * Q)) (point : Q)
  : option string :=
  match traffic_allocation with
  | [] => None
  | (variant, fraction) :: rest =>
      if Qlt_le_dec point fraction then Some variant
      else bucket_of rest (point - fraction)
  end.

(** The experiment of [API_DOCS.md] and one that sends everyone to A. *)
Definition rec_test_v1 : list (string * Q) :=
  [("control", 1 # 2); ("treatment", 1 # 2)].

Definition all_to_A : list (string * Q) := [("A", 1%Q); ("B", 0%Q)].




(** Section 4.1: [record] accepts a type that the weight table knows. *)
Definition valid_type (table : gmap string Z) (ty : string) : Prop :=
  is_Some (table !! ty).

End Spec.

(** * Properties *)

(** ** The cart ([addToCart]) *)

Section Cart.
Import Frontend.

Lemma recordAdvancedInteraction_cart now productId ty s :
  cart (recordAdvancedInteraction now productId ty s) = cart s.
Proof.
  unfold recordAdvancedInteraction.
  destruct (currentUser s); [|done].
  by destruct (triggers_update ty).
Qed.

Lemma addToCart_cart now p s :
  cart (addToCart now p s) = add_item (cart s) p.
Proof. unfold addToCart. by rewrite recordAdvancedInteraction_cart. Qed.

Lemma run_cart now c s : cart (run now c s) = cart s.
Proof.
  destruct c; simpl; done.
Qed.

Lemma fire_cart now i s : cart (fire now i s) = cart s.
Proof.
  unfold fire. destruct (timers s !! i) as [[d c]|]; [|done].
  by rewrite run_cart.
Qed.

Lemma find_item_None c p :
  find_item c p = None <-> product_id p ∉ cart_ids c.
Proof.
  unfold find_item, cart_ids. induction c as [|i c IH]; simpl.
  - split; [intros _; apply not_elem_of_nil | done].
  - rewrite not_elem_of_cons. destruct (Z.eqb_spec (product_id (item i)) (product_id p)).
    + split; [done | intros [? _]; congruence].
    + rewrite IH. split; [intros ?; split; congruence | tauto].
Qed.

Lemma cart_ids_increment c p :
  cart_ids (map (increment p) c) = cart_ids c.
Proof.
  unfold cart_ids. rewrite map_map. apply map_ext. intros i.
  unfold increment. by destruct (_ =? _)%Z.
Qed.

Lemma increment_other c p :
  product_id p ∉ cart_ids c -> map (increment p) c = c.
Proof.
  induction c as [|i c IH]; [done|]. simpl.
  rewrite not_elem_of_cons. intros [Hne Hnin].
  rewrite IH by done. unfold increment.
  destruct (Z.eqb_spec (product_id (item i)) (product_id p)); [congruence|done].
Qed.

(** With unique ids, incrementing rewrites one entry of the cart. *)
Lemma increment_one c p :
  NoDup (cart_ids c) -> product_id p ∈ cart_ids c ->
  exists c1 i c2,
    c = c1 ++ i :: c2 /\ product_id (item i) = product_id p /\
    map (increment p) c = c1 ++ CartItem (item i) (quantity i + 1) :: c2.
Proof.
  induction c as [|i c IH]; simpl.
  - intros _ H. by apply elem_of_nil in H.
  - rewrite NoDup_cons, elem_of_cons. intros [Hnin Hnd] Hin.
    destruct (Z.eqb_spec (product_id (item i)) (product_id p)) as [Heq|Hne].
    + exists [], i, c. unfold increment at 1.
      rewrite (proj2 (Z.eqb_eq _ _) Heq).
      rewrite increment_other by (fold (cart_ids c); congruence). done.
    + destruct Hin as [?|Hin]; [congruence|].
      destruct (IH Hnd Hin) as (c1 & j & c2 & -> & Hj & Hmap).
      exists (i :: c1), j, c2. unfold increment at 1.
      rewrite (proj2 (Z.eqb_neq _ _) Hne). simpl. by rewrite Hmap.
Qed.

Lemma add_item_NoDup c p :
  NoDup (cart_ids c) -> NoDup (cart_ids (add_item c p)).
Proof.
  intros Hnd. unfold add_item. destruct (find_item c p) eqn:Hf.
  - by rewrite cart_ids_increment.
  - apply find_item_None in Hf. unfold cart_ids in *.
    rewrite map_app. simpl. apply NoDup_app. repeat split; [done| |].
    + intros x Hx ->%list_elem_of_singleton. done.
    + apply NoDup_singleton.
Qed.

Lemma fold_record_cart now (c : list cart_item) s :
  cart (fold_left
          (fun s i => recordAdvancedInteraction now (product_id (item i))
                        "purchase" s) c s) = cart s.
Proof.
  revert s. induction c as [|i c IH]; intros s; simpl; [done|].
  by rewrite IH, recordAdvancedInteraction_cart.
Qed.

Lemma step_cart_ids s s' :
  step s s' -> NoDup (cart_ids (cart s)) -> NoDup (cart_ids (cart s')).
Proof.
  destruct 1; intros Hnd.
  - done.
  - by rewrite recordAdvancedInteraction_cart.
  - rewrite addToCart_cart. by apply add_item_NoDup.
  - simpl. apply NoDup_nil_2.
  - by rewrite fire_cart.
Qed.

Lemma reachable_cart_ids s : reachable s -> NoDup (cart_ids (cart s)).
Proof.
  induction 1 as [g|s s' _ IH Hstep].
  - apply NoDup_nil_2.
  - by apply (step_cart_ids s).
Qed.

(** C10. In every state the component reaches, no two entries of the cart
    have the same product id, and [addToCart] keeps it so: for a product
    that is in the cart it adds 1 to the quantity of that one entry and
    changes nothing else, the length included; for a new product it
    appends one entry with quantity 1. *)
Theorem addToCart_unique_ids s now p :
  reachable s ->
  let c := cart s in
  let c' := cart (addToCart now p s) in
  NoDup (cart_ids c) /\ NoDup (cart_ids c') /\
  (product_id p ∈ cart_ids c ->
     length c' = length c /\
     exists c1 i c2,
       c = c1 ++ i :: c2 /\ product_id (item i) = product_id p /\
       c' = c1 ++ CartItem (item i) (quantity i + 1) :: c2) /\
  (product_id p ∉ cart_ids c -> c' = c ++ [CartItem p 1]).
Proof.
  intros Hr c c'. subst c c'. rewrite addToCart_cart.
  pose proof (reachable_cart_ids s Hr) as Hnd.
  split; [done|]. split; [by apply add_item_NoDup|]. split.
  - intros Hin. unfold add_item.
    destruct (find_item (cart s) p) eqn:Hf.
    + split; [by rewrite length_map|]. by apply increment_one.
    + apply find_item_None in Hf. done.
  - intros Hnin. unfold add_item.
    by rewrite (proj2 (find_item_None _ _) Hnin).
Qed.

Lemma addToCart_unique_ids_example :
  reachable with_cart /\
  let c := cart with_cart in
  let c' := cart (addToCart 2500 headphones with_cart) in
  NoDup (cart_ids c) /\ NoDup (cart_ids c') /\
  (product_id headphones ∈ cart_ids c ->
     length c' = length c /\
     exists c1 i c2,
       c = c1 ++ i :: c2 /\ product_id (item i) = product_id headphones /\
       c' = c1 ++ CartItem (item i) (quantity i + 1) :: c2) /\
  (product_id headphones ∉ cart_ids c -> c' = c ++ [CartItem headphones 1]).
Proof.
  assert (H : reachable with_cart).
  { unfold with_cart, logged_in.
    eapply reachable_step; [|apply step_cart].
    eapply reachable_step; [|apply step_login].
    apply reachable_initial. }
  split; [exact H|].
  exact (addToCart_unique_ids with_cart 2500 headphones H).
Defined.

(** A second click on the same product: still one entry, quantity 2. *)
Example addToCart_twice :
  map (fun i => (product_id (item i), quantity i))
    (cart (addToCart 2500 headphones with_cart)) = [(1, 2)]%Z.
Proof. reflexivity. Qed.

End Cart.

(** ** The HTTP client ([request], [getRecommendations], [getAllProducts]) *)

Section Client.
Import Api.

(** [request] resolves with the body of an ok response, and only then. *)
Lemma request_resolves env endpoint o log v :
  fst (request env endpoint o log) = Ok v <->
  delivers env (API_BASE_URL env ++ endpoint) o v.
Proof.
  unfold request, delivers.
  destruct (fetch env _ _) as [r|e] eqn:Hf; simpl.
  - destruct (ok r) eqn:Hok; simpl.
    + destruct (body_json r) as [w|e] eqn:Hb; simpl.
      * split.
        -- intros [= ->]. by exists r.
        -- intros (r' & [= <-] & _ & Hb'). congruence.
      * split; [done|]. intros (r' & [= <-] & _ & Hb'). congruence.
    + split; [done|]. intros (r' & [= <-] & Hok' & _). congruence.
  - split; [done|]. by intros (r' & ? & _).
Qed.

(** A resolving [request] logs nothing; a rejecting one logs the error it
    rejects with, once, and that error is [fetch]'s, or the status
    message, or the parser's. *)
Lemma request_outcome env endpoint o log :
  match request env endpoint o log with
  | (Ok v, log') => log' = log
  | (Err e, log') => log' = log ++ [e]
  end.
Proof.
  unfold request. destruct (fetch env _ _) as [r|e]; [|done].
  destruct (ok r); simpl; [|done]. by destruct (body_json r).
Qed.

Lemma request_rejects env endpoint o log :
  (forall v, ~ delivers env (API_BASE_URL env ++ endpoint) o v) ->
  exists e, request env endpoint o log = (Err e, log ++ [e]).
Proof.
  intros Hno. pose proof (request_outcome env endpoint o log) as Ho.
  destruct (request env endpoint o log) as [[v|e] log'] eqn:Hr.
  - destruct (Hno v). apply (request_resolves env endpoint o log).
    by rewrite Hr.
  - exists e. by rewrite Ho.
Qed.

(** C8, as the code has it. [getRecommendations] resolves exactly when
    [fetch] delivers an ok response with a JSON body, and then with that
    body unchanged and nothing logged; in every other case it rejects to
    its caller with the error that [request] logged and rethrew. No list
    is put in the place of a failure. *)
Theorem getRecommendations_rethrows env userId count log :
  (forall v,
     fst (getRecommendations env userId count log) = Ok v <->
     delivers env (recommendations_url env userId count) no_options v) /\
  match getRecommendations env userId count log with
  | (Ok v, log') => log' = log
  | (Err e, log') => log' = log ++ [e]
  end /\
  ((forall v,
      ~ delivers env (recommendations_url env userId count) no_options v) ->
   exists e, getRecommendations env userId count log = (Err e, log ++ [e])).
Proof.
  unfold getRecommendations, recommendations_url.
  split; [|split].
  - intros v. apply request_resolves.
  - apply request_outcome.
  - apply request_rejects.
Qed.

(** The specification has every request answered with a list. With a
    backend that answers 500, or none at all, the promise of
    [getRecommendations] rejects. *)
Lemma getRecommendations_rejects_on_failure :
  getRecommendations failing_backend 1 (Some 5%Z) [] =
    (Err (Error "HTTP error! status: 500"),
     [Error "HTTP error! status: 500"]) /\
  getRecommendations unreachable_backend 1 None [] =
    (Err (Error "Failed to fetch"), [Error "Failed to fetch"]).
Proof. split; reflexivity. Qed.

Lemma searchProducts_all env log :
  searchProducts env "" None log = request env "/search/?q=" no_options log.
Proof. reflexivity. Qed.

(** C9. [getAllProducts] always resolves: with the result of the search
    request, unchanged, when that request resolves, and with the fixed
    sample object for any rejection of it. The sample object holds 5
    products and [count] 5. *)
Theorem getAllProducts_never_rejects env log :
  fst (getAllProducts env log) =
    Ok (match fst (searchProducts env "" None log) with
        | Ok found => found
        | Err _ => sample_data
        end) /\
  (get "products" sample_data ≫= array_length) = Some 5%nat /\
  get "count" sample_data = Some (JNum 5).
Proof.
  split; [|by split].
  unfold getAllProducts.
  by destruct (searchProducts env "" None log) as [[found|e] log'].
Qed.

End Client.

(** ** Recording interactions ([recordAdvancedInteraction], the view) *)

Section Recording.
Import Frontend.

Lemma addNotification_userBehavior now msg ty s :
  userBehavior (addNotification now msg ty s) = userBehavior s.
Proof. reflexivity. Qed.

Lemma recordAdvancedInteraction_log now productId ty s :
  userBehavior (recordAdvancedInteraction now productId ty s) =
    match currentUser s with
    | Some u => userBehavior s ++ [Behavior (user_id u) productId ty now]
    | None => userBehavior s
    end.
Proof.
  unfold recordAdvancedInteraction.
  destruct (currentUser s) as [u|]; [|done].
  by destruct (triggers_update ty).
Qed.

(** C7, as the code has it. Nothing compares the type of an interaction
    with the weight table. With a user logged in,
    [recordAdvancedInteraction] appends the interaction to the behaviour
    log for every type, and without one it records nothing; it raises in
    neither case. [recordInteraction] posts every type as it is given,
    and resolves exactly when the request is delivered. *)
Theorem recordAdvancedInteraction_any_type now productId ty s :
  userBehavior (recordAdvancedInteraction now productId ty s) =
    match currentUser s with
    | Some u => userBehavior s ++ [Behavior (user_id u) productId ty now]
    | None => userBehavior s
    end /\
  forall env userId log v,
    fst (Api.recordInteraction env userId productId ty log) = Ok v <->
    Api.delivers env (Api.API_BASE_URL env ++ "/interaction/")
      (Api.interaction_options userId productId ty) v.
Proof.
  split; [apply recordAdvancedInteraction_log|].
  intros env userId log v. apply request_resolves.
Qed.

(** The specification asks for a rejection of every type outside the
    weight table. "teleport" is outside it; the page records it, and the client
    posts it and resolves. *)
Lemma unknown_type_is_recorded :
  ~ Spec.valid_type Engine.score_map "teleport" /\
  userBehavior (recordAdvancedInteraction 1500 3 "teleport" logged_in) =
    userBehavior logged_in ++ [Behavior 1 3 "teleport" 1500] /\
  Api.recordInteraction Api.accepting_backend 1 3 "teleport" [] =
    (Ok Api.recorded, []).
Proof.
  split; [|split].
  - unfold Spec.valid_type. intros [w Hw]. vm_compute in Hw. discriminate.
  - reflexivity.
  - reflexivity.
Qed.

End Recording.

(** ** The recommendations of the page ([generateAdvancedRecommendations]) *)

Section Page.
Import Frontend.





End Page.

(** ** The order of doubles *)

Section DoubleOrder.
Import Engine.

Lemma SFcompare_rank x y a b :
  rank x = Some a -> rank y = Some b ->
  exists c, SFcompare x y = Some c /\
    match c with
    | Lt => lex_lt a b
    | Eq => a = b
    | Gt => lex_lt b a
    end.
Proof.
  destruct x as [sx|sx| |sx m e], y as [sy|sy| |sy m' e'];
    try destruct sx; try destruct sy; simpl;
    intros [= <-] [= <-];
    try (eexists; split; [reflexivity|]; simpl; first [done | lia]).
  - eexists. split; [reflexivity|].
    destruct (Z.compare_spec e e') as [->|He|He]; simpl; try lia.
    rewrite Pos.compare_cont_spec. simpl.
    destruct (Pos.compare_spec m m') as [->|Hm|Hm]; simpl; try lia. done.
  - eexists. split; [reflexivity|].
    destruct (Z.compare_spec e e') as [->|He|He]; simpl; try lia.
    rewrite Pos.compare_cont_spec. simpl.
    destruct (Pos.compare_spec m m') as [->|Hm|Hm]; simpl; try lia. done.
Qed.

Lemma SFcompare_nan x y :
  rank x = None \/ rank y = None -> SFcompare x y = None.
Proof.
  destruct x as [sx|sx| |sx m e], y as [sy|sy| |sy m' e'];
    try destruct sx; try destruct sy; simpl; intros [H|H]; done.
Qed.

Lemma is_nan_rank x : is_nan x = false <-> is_Some (rank (Prim2SF x)).
Proof.
  unfold is_nan. rewrite FloatAxioms.eqb_spec. unfold SFeqb.
  destruct (rank (Prim2SF x)) as [a|] eqn:Ha.
  - destruct (SFcompare_rank _ _ _ _ Ha Ha) as (c & -> & Hc).
    split; [by eauto|]. intros _.
    destruct c; [done| |]; destruct a as [[a1 a2] a3]; simpl in Hc; lia.
  - rewrite SFcompare_nan by auto. split; [done|]. by intros [? ?].
Qed.

Lemma ltb_rank x y :
  (x <? y)%float = true <->
  exists a b, rank (Prim2SF x) = Some a /\ rank (Prim2SF y) = Some b /\
              lex_lt a b.
Proof.
  rewrite FloatAxioms.ltb_spec. unfold SFltb.
  destruct (rank (Prim2SF x)) as [a|] eqn:Ha;
    [destruct (rank (Prim2SF y)) as [b|] eqn:Hb|].
  - destruct (SFcompare_rank _ _ _ _ Ha Hb) as (c & -> & Hc).
    destruct a as [[a1 a2] a3], b as [[b1 b2] b3].
    destruct c; simpl in Hc; split; try done;
      try (intros (a' & b' & [= <-] & [= <-] & H); simpl in H; exfalso; lia);
      try (intros (a' & b' & [= <-] & [= <-] & H); simpl in H;
           injection Hc as -> -> ->; exfalso; lia).
    intros _. eexists _, _. by repeat split.
  - rewrite SFcompare_nan by auto. split; [done|].
    by intros (? & ? & _ & ? & _).
  - rewrite SFcompare_nan by auto. split; [done|].
    by intros (? & ? & ? & _).
Qed.

Lemma leb_rank x y :
  (x <=? y)%float = true <->
  exists a b, rank (Prim2SF x) = Some a /\ rank (Prim2SF y) = Some b /\
              ~ lex_lt b a.
Proof.
  rewrite FloatAxioms.leb_spec. unfold SFleb.
  destruct (rank (Prim2SF x)) as [a|] eqn:Ha;
    [destruct (rank (Prim2SF y)) as [b|] eqn:Hb|].
  - destruct (SFcompare_rank _ _ _ _ Ha Hb) as (c & -> & Hc).
    destruct a as [[a1 a2] a3], b as [[b1 b2] b3].
    destruct c; simpl in Hc; split; try done.
    + intros _. eexists _, _. repeat split. injection Hc as -> -> ->.
      simpl. lia.
    + intros _. eexists _, _. repeat split. simpl. lia.
    + intros (a' & b' & [= <-] & [= <-] & H). simpl in H. exfalso. lia.
  - rewrite SFcompare_nan by auto. split; [done|].
    by intros (? & ? & _ & ? & _).
  - rewrite SFcompare_nan by auto. split; [done|].
    by intros (? & ? & ? & _).
Qed.


(** Where neither is a NaN, one of two doubles is below the other or
    they are level. *)
Lemma ltb_false_leb x y :
  is_nan x = false -> is_nan y = false ->
  (x <? y)%float = false -> (y <=? x)%float = true.
Proof.
  intros [a Ha]%is_nan_rank [b Hb]%is_nan_rank Hlt.
  apply leb_rank. exists b, a. repeat split; try done.
  intros H. apply not_true_iff_false in Hlt. apply Hlt, ltb_rank. eauto.
Qed.

Lemma leb_trans x y z :
  (x <=? y)%float = true -> (y <=? z)%float = true -> (x <=? z)%float = true.
Proof.
  intros (a & b & Ha & Hb & Hab)%leb_rank (b' & c & Hb' & Hc & Hbc)%leb_rank.
  assert (b' = b) as -> by congruence.
  apply leb_rank. exists a, c. repeat split; try done.
  destruct a as [[a1 a2] a3], b as [[b1 b2] b3], c as [[c1 c2] c3].
  simpl in *. lia.
Qed.


Lemma ltb_leb x y : (x <? y)%float = true -> (x <=? y)%float = true.
Proof.
  intros (a & b & Ha & Hb & H)%ltb_rank.
  apply leb_rank. exists a, b. repeat split; try done.
  destruct a as [[a1 a2] a3], b as [[b1 b2] b3]. simpl in *. lia.
Qed.

Lemma leb_not_nan x y :
  (x <=? y)%float = true -> is_nan x = false /\ is_nan y = false.
Proof.
  intros (a & b & Ha & Hb & _)%leb_rank.
  split; apply is_nan_rank; eauto.
Qed.

End DoubleOrder.

(** ** Ranking ([sorted_reverse], [compute_recommendations]) *)

Section Ranking.
Import Engine.
Context {A : Type}.
Implicit Types (x : A * float) (l : list (A * float)).

Lemma insert_reverse_Permutation x l : insert_reverse x l ≡ₚ x :: l.
Proof.
  induction l as [|y l IH]; simpl; [done|].
  destruct (snd x <? snd y)%float; [|done].
  rewrite IH. apply perm_swap.
Qed.

Lemma sorted_reverse_Permutation l : sorted_reverse l ≡ₚ l.
Proof.
  induction l as [|x l IH]; simpl; [done|].
  by rewrite insert_reverse_Permutation, IH.
Qed.

Lemma insert_reverse_descending x l :
  is_nan (snd x) = false ->
  Forall (fun y => is_nan (snd y) = false) l ->
  StronglySorted descending l -> StronglySorted descending (insert_reverse x l).
Proof.
  intros Hx. induction l as [|y l IH]; simpl; intros Hl Hs.
  - by repeat constructor.
  - apply Forall_cons in Hl as [Hy Hl].
    apply StronglySorted_inv in Hs as [Hsl Hyl].
    destruct (snd x <? snd y)%float eqn:Hlt.
    + constructor; [by apply IH|].
      rewrite insert_reverse_Permutation. constructor; [|done].
      by apply ltb_leb.
    + assert (Hyx : descending x y) by by apply ltb_false_leb.
      constructor; [by constructor|]. constructor; [done|].
      eapply Forall_impl; [exact Hyl|].
      unfold descending in *. intros z Hz. by apply leb_trans with (snd y).
Qed.

Lemma sorted_reverse_descending l :
  Forall (fun y => is_nan (snd y) = false) l ->
  StronglySorted descending (sorted_reverse l).
Proof.
  induction l as [|x l IH]; simpl; intros Hl; [constructor|].
  apply Forall_cons in Hl as [Hx Hl].
  apply insert_reverse_descending; [done| |by apply IH].
  by rewrite sorted_reverse_Permutation.
Qed.



Lemma slice_to_take (n : Z) (l : list (A * float)) :
  exists k, slice_to n l = take k l.
Proof. unfold slice_to. destruct (0 <=? n)%Z; eauto. Qed.


End Ranking.

(** ** Serving ([get_recommendations]) *)

Section Serving.
Import Engine.

Lemma compute_recommendations_ranked user n s :
  compute_recommendations user n s =
    map format (slice_to n (sorted_reverse (scored user s))).
Proof. reflexivity. Qed.

Lemma get_recommendations_miss now user n s :
  served_from_cache now user n s = false ->
  get_recommendations now user n s =
    (compute_recommendations user n s,
     set_cache
       (cache_set now (cache_key user n) (compute_recommendations user n s)
          1800 (cache s)) s).
Proof.
  unfold served_from_cache, get_recommendations.
  by destruct (cache_get now (cache_key user n) (cache s)) as [[|r l]|].
Qed.

Lemma format_score (x : Product * float) :
  confidence_score (format x) = snd x.
Proof. reflexivity. Qed.



Lemma scored_candidates user s : map fst (scored user s) = candidates user s.
Proof.
  unfold scored, ensemble, predict.
  generalize (collaborative_filtering_model s user (candidates user s)).
  generalize (matrix_factorization_model s user (candidates user s)).
  intros f g. induction (candidates user s) as [|c l IH]; [done|].
  simpl. by rewrite IH.
Qed.









End Serving.

(** ** Examples of serving *)

Section ServingExamples.
Import Engine.




(** The blend is rounded as doubles are. The query lists the headphones
    first; one model gives them 3 and the watch 0, the other gives the
    watch 7 and the headphones 0. Both blends are 2.1 in exact
    arithmetic, which would leave the headphones first; in doubles
    [0.7 * 3] is 2.0999999999999996, below [0.3 * 7], and the watch comes
    first. *)
Example rounding_decides_order :
  map rec_product_id (fst (get_recommendations 0 7 10 divided)) = [2; 1]%Z /\
  map confidence_score (fst (get_recommendations 0 7 10 divided)) =
    [2.1%float; 2.0999999999999996%float].
Proof. by vm_compute. Qed.


End ServingExamples.

(** ** The cache and new interactions *)

Section Invalidation.
Import Engine.

Lemma append_assoc (a b c : string) :
  ((a ++ b) ++ c = a ++ b ++ c)%string.
Proof.
  induction a as [|x a IH]; [done|].
  change (String x ((a ++ b) ++ c) = String x (a ++ b ++ c))%string.
  by rewrite IH.
Qed.







(** Cache keys tell users and counts apart. *)
Lemma to_int_proper z :
  Z.to_int z <> Decimal.Pos Decimal.Nil /\ Z.to_int z <> Decimal.Neg Decimal.Nil.
Proof.
  rewrite <- (DecimalZ.of_to z) at 1 2. rewrite DecimalZ.to_of.
  destruct (Z.to_int z) as [d|d]; simpl.
  - split; [|done]. intros [= H]. by apply DecimalFacts.unorm_nonnil in H.
  - by destruct (Decimal.nzhead d).
Qed.

Lemma number_to_string_inj a b :
  number_to_string a = number_to_string b -> a = b.
Proof.
  unfold number_to_string. intros H.
  apply (f_equal NilZero.int_of_string) in H.
  rewrite !NilZero.isi in H by apply to_int_proper.
  injection H as H. by apply DecimalZ.to_int_inj.
Qed.

Lemma string_of_uint_plain d : occurs "_" (NilEmpty.string_of_uint d) = false.
Proof. induction d; simpl; done. Qed.

Lemma number_to_string_plain z : occurs "_" (number_to_string z) = false.
Proof.
  unfold number_to_string.
  destruct (Z.to_int z) as [d|d]; simpl;
    destruct d; simpl; try done; apply string_of_uint_plain.
Qed.

Lemma split_at_separator a a' b b' :
  occurs "_" a = false -> occurs "_" a' = false ->
  (a ++ String "_" b = a' ++ String "_" b')%string -> a = a' /\ b = b'.
Proof.
  revert a'. induction a as [|x a IH]; intros [|x' a']; simpl.
  - intros _ _ [= ->]. done.
  - destruct (Ascii.eqb_spec x' "_"); [done|]. intros _ _ [= <-]. done.
  - destruct (Ascii.eqb_spec x "_"); [done|]. intros _ _ [= ->]. done.
  - destruct (Ascii.eqb_spec x "_"); [done|].
    destruct (Ascii.eqb_spec x' "_"); [done|].
    intros Ha Ha' [= -> H]. by destruct (IH a' Ha Ha' H) as [-> ->].
Qed.

Lemma cache_key_inj u n u' n' :
  cache_key u n = cache_key u' n' -> u = u' /\ n = n'.
Proof.
  unfold cache_key. intros H.
  apply String.app_inj in H.
  apply split_at_separator in H as [Hu Hn];
    try apply number_to_string_plain.
  split; by apply number_to_string_inj.
Qed.


(** The tables and models decide a computation, not the cache; and the
    interactions of other users do not change it. *)
Lemma compute_other_user u u0 p ty rating now n c s :
  u <> u0 ->
  compute_recommendations u n
    (set_cache c (set_behaviors (behaviors s ++ [Row u0 p ty rating now]) s)) =
  compute_recommendations u n s.
Proof.
  intros Hne. unfold compute_recommendations. simpl.
  rewrite filter_app, filter_cons_False, filter_nil, app_nil_r by (simpl; congruence).
  done.
Qed.

Lemma compute_set_cache u n c s :
  compute_recommendations u n (set_cache c s) = compute_recommendations u n s.
Proof. reflexivity. Qed.














(** The single functions are runs of the parts: a request and a
    precomputation that nothing disturbs. *)
Lemma request_undisturbed now u n s jobs :
  rtc step (World s jobs) (World (snd (get_recommendations now u n s)) jobs).
Proof.
  pose proof (step_start now u (Request n) (World s jobs)) as Hstart.
  cbn [store in_flight] in Hstart. unfold start in Hstart.
  unfold get_recommendations. cbn [count] in *.
  destruct (cache_get now (cache_key u n) (cache s)) as [[|r cached]|];
    cbn [snd].
  - eapply rtc_l; [exact Hstart|]. eapply rtc_l; [apply step_compute|].
    eapply rtc_l; [apply (step_set now)|].
    cbn [finish count]. rewrite app_nil_r. apply rtc_refl.
  - rewrite app_nil_r in Hstart. by apply rtc_once.
  - eapply rtc_l; [exact Hstart|]. eapply rtc_l; [apply step_compute|].
    eapply rtc_l; [apply (step_set now)|].
    cbn [finish count]. rewrite app_nil_r. apply rtc_refl.
Qed.

Lemma task_undisturbed now u s jobs :
  rtc step (World s jobs) (World (precompute_recommendations now u s) jobs).
Proof.
  pose proof (step_start now u Task (World s jobs)) as Hstart.
  cbn [store in_flight] in Hstart. unfold start in Hstart.
  unfold precompute_recommendations, get_recommendations.
  cbn [count] in *.
  destruct (cache_get now (cache_key u 10) (cache s)) as [[|r cached]|].
  - eapply rtc_l; [exact Hstart|]. eapply rtc_l; [apply step_compute|].
    eapply rtc_l; [apply (step_set now)|]. cbn [finish count].
    eapply rtc_l; [apply (step_store now)|].
    rewrite app_nil_r. apply rtc_refl.
  - eapply rtc_l; [exact Hstart|].
    eapply rtc_l; [apply (step_store now)|].
    rewrite app_nil_r. apply rtc_refl.
  - eapply rtc_l; [exact Hstart|]. eapply rtc_l; [apply step_compute|].
    eapply rtc_l; [apply (step_set now)|]. cbn [finish count].
    eapply rtc_l; [apply (step_store now)|].
    rewrite app_nil_r. apply rtc_refl.
Qed.


(** Before the purchase the cache would have answered user 7 with both
    products; after it the answer is computed anew and the watch is
    gone. *)
Example cached_then_fresh :
  map rec_product_id (fst (get_recommendations 50 7 10 warm)) = [2; 1]%Z /\
  served_from_cache 50 7 10 warm = true /\
  map rec_product_id (fst (get_recommendations 150 7 10 bought)) = [1]%Z.
Proof. by vm_compute. Qed.



End Invalidation.

(** ** Feature weights ([score_map], [apply_time_decay], the builder) *)

Section Features.
Import Engine.
Open Scope R_scope.

Variables (table : gmap string Z) (decay : R) (now : Z).





End Features.

Section NoDecay.
Import Engine.
Open Scope R_scope.


End NoDecay.



(** ** Experiments ([assign_user_to_variant]) *)

Section Experiments.
Import Engine.
Open Scope Z_scope.

Lemma hex_value_hex_char d : 0 <= d < 16 -> hex_value (hex_char d) = d.
Proof.
  intros Hd.
  assert (H : d = 0 \/ d = 1 \/ d = 2 \/ d = 3 \/ d = 4 \/ d = 5 \/ d = 6 \/
              d = 7 \/ d = 8 \/ d = 9 \/ d = 10 \/ d = 11 \/ d = 12 \/
              d = 13 \/ d = 14 \/ d = 15) by lia.
  repeat (destruct H as [->|H]; [reflexivity|]). by subst.
Qed.

(** The parity of a hexadecimal numeral is that of its last byte. *)
Lemma int16_hexdigest_even bs b :
  0 <= b < 256 ->
  Z.even (int16 (hexdigest (bs ++ [b]))) = Z.even b.
Proof.
  intros Hb. unfold int16, hexdigest.
  rewrite list_ascii_of_string_of_list_ascii.
  rewrite flat_map_app, fold_left_app. simpl.
  rewrite (hex_value_hex_char (b mod 16)) by (apply Z.mod_pos_bound; lia).
  rewrite Z.even_add, Z.even_mul. simpl.
  rewrite (Z.div_mod b 16) at 2 by lia.
  rewrite Z.even_add, Z.even_mul. simpl. done.
Qed.

Lemma md5_last msg :
  exists digest b, md5 msg = digest ++ [b] /\ 0 <= b < 256.
Proof.
  unfold md5.
  destruct (md5_blocks _ _ _) as [[[a b] c] d].
  exists (le_bytes 4 a ++ le_bytes 4 b ++ le_bytes 4 c
            ++ take 3 (le_bytes 4 d)),
         (Z.shiftr d 24 mod 256).
  split.
  - by rewrite <- !app_assoc.
  - apply Z.mod_pos_bound. lia.
Qed.

(** C4, as the code has it. [assign_user_to_variant] is a function of
    the user id and the experiment name alone: it answers "A" when the
    last byte of the MD5 digest of "<user_id>_<experiment_name>" is even
    (which is when the digest, read as a number, is even) and "B"
    otherwise. It reads no traffic_allocation and knows no other
    variant. *)
Theorem assign_user_to_variant_parity user experiment_name :
  let digest :=
    md5 (encode (number_to_string user ++ "_" ++ experiment_name)%string) in
  assign_user_to_variant user experiment_name =
    (if Z.even (List.last digest 0) then "A" else "B")%string /\
  (assign_user_to_variant user experiment_name = "A"%string \/
   assign_user_to_variant user experiment_name = "B"%string).
Proof.
  intros digest. unfold assign_user_to_variant. fold digest.
  destruct (md5_last (encode (number_to_string user ++ "_"
                                ++ experiment_name)%string))
    as (d & b & Hd & Hb).
  fold digest in Hd. rewrite Hd, last_last.
  rewrite <- (int16_hexdigest_even d b Hb).
  rewrite Zeven_mod.
  destruct (_ =? 0); auto.
Qed.

(** The specification has the hash mapped into the cumulative
    traffic_allocation buckets. With everything allocated to A every point falls in the
    bucket of A, yet user 1 gets B in "homepage_test"; and in the
    experiment of the API documentation the answer is neither of its
    variants. *)
Lemma variant_ignores_traffic_allocation :
  (forall point, (0 <= point)%Q -> (point < 1)%Q ->
                 Spec.bucket_of Spec.all_to_A point = Some "A"%string) /\
  assign_user_to_variant 1 "homepage_test" = "B"%string /\
  assign_user_to_variant 1 "rec_test_v1" ∉ map fst Spec.rec_test_v1.
Proof.
  split; [|split].
  - intros point _ Hlt. simpl.
    destruct (Qlt_le_dec point 1) as [_|Hge]; [done|].
    by apply Qle_not_lt in Hge.
  - by vm_compute.
  - vm_compute.
    intros H. apply list_elem_of_In in H. simpl in H.
    destruct H as [H|[H|[]]]; discriminate.
Qed.

(** Test vectors of RFC 1321 and the digests behind the examples. *)
Example md5_vectors :
  hexdigest (md5 (encode "")) = "d41d8cd98f00b204e9800998ecf8427e"%string /\
  hexdigest (md5 (encode "a")) = "0cc175b9c0f1b6a831c399e269772661"%string /\
  hexdigest (md5 (encode "message digest")) =
    "f96b697d7cb7938d525a2f31aaf161d0"%string /\
  hexdigest (md5 (encode
    "12345678901234567890123456789012345678901234567890123456789012345678901234567890"))
    = "57edf4a22be3c955ac49da2e2107b67a"%string /\
  hexdigest (md5 (encode "1_homepage_test")) =
    "400449e2f96f9ea8ab6b7837d7482217"%string.
Proof. by vm_compute. Qed.

End Experiments.

(** ** Training ([MatrixFactorizationModel.fit]) *)

Section Training.
Import Engine.

Variable predict_single : model -> nat -> nat -> result exception float.

(** What the initialisation draws: the next [cols] values, then the
    [rows * cols] values, of the generator. *)
Lemma normal_vector_draws cols g :
  normal_vector cols g =
    (map (fun i => draws g (position g + i)) (seq 0 cols),
     RandomSource (draws g) (position g + cols)).
Proof.
  revert g. induction cols as [|cols IH]; intros [d p]; simpl.
  - by rewrite Nat.add_0_r.
  - rewrite IH. simpl. rewrite Nat.add_0_r. f_equal.
    + f_equal. rewrite <- seq_shift, map_map.
      apply map_ext. intros i. f_equal. lia.
    + f_equal. lia.
Qed.

Lemma normal_matrix_draws rows cols g :
  normal_matrix rows cols g =
    (map (fun r =>
            map (fun i => draws g (position g + (r * cols + i))) (seq 0 cols))
         (seq 0 rows),
     RandomSource (draws g) (position g + rows * cols)).
Proof.
  revert g. induction rows as [|rows IH]; intros [d p]; simpl.
  - by rewrite Nat.add_0_r.
  - rewrite normal_vector_draws, IH. simpl. f_equal.
    + f_equal.
      rewrite <- seq_shift, map_map.
      apply map_ext. intros r. apply map_ext. intros i. f_equal. lia.
    + f_equal. lia.
Qed.

(** Two generators that are about to give the same [n] draws fill a
    matrix of [n] entries alike. *)
Lemma normal_matrix_agree rows cols g1 g2 :
  (forall i, (i < rows * cols)%nat ->
             draws g1 (position g1 + i) = draws g2 (position g2 + i)) ->
  fst (normal_matrix rows cols g1) = fst (normal_matrix rows cols g2).
Proof.
  intros H. rewrite !normal_matrix_draws. simpl.
  apply map_ext_in. intros r Hr%in_seq.
  apply map_ext_in. intros i Hi%in_seq.
  apply H. nia.
Qed.

(** C5. Two runs of [fit] on the same settings and triples, whose
    generators are in the same state as far as the run reads them (the
    next [(n_users + n_items) * n_factors] draws agree, as they do after
    seeding with the same seed), leave identical user and item factors,
    float for float, or raise the same exception. What the two model
    objects held before does not matter, nor what the generators would
    draw later. *)
Theorem fit_reproducible cfg epochs g1 g2 self1 self2 :
  n_factors self1 = n_factors self2 ->
  (forall i, (i < (n_users cfg + n_items cfg) * n_factors self1)%nat ->
             draws g1 (position g1 + i) = draws g2 (position g2 + i)) ->
  fst (fit predict_single cfg epochs g1 self1) =
  fst (fit predict_single cfg epochs g2 self2).
Proof.
  intros Hk Hdraws. unfold fit. rewrite <- Hk.
  set (k := n_factors self1) in *.
  pose proof (normal_matrix_agree (n_users cfg) k g1 g2) as HU.
  rewrite (normal_matrix_draws (n_users cfg) k g1) in *.
  rewrite (normal_matrix_draws (n_users cfg) k g2) in *.
  cbn [fst] in HU. rewrite HU by (intros i Hi; apply Hdraws; nia).
  set (h1 := RandomSource (draws g1) (position g1 + n_users cfg * k)).
  set (h2 := RandomSource (draws g2) (position g2 + n_users cfg * k)).
  pose proof (normal_matrix_agree (n_items cfg) k h1 h2) as HV.
  rewrite (normal_matrix_draws (n_items cfg) k h1) in *.
  rewrite (normal_matrix_draws (n_items cfg) k h2) in *.
  cbn [fst] in *. rewrite HV; [done|].
  intros i Hi. subst h1 h2. cbn [draws position].
  rewrite <- !Nat.add_assoc. apply Hdraws. nia.
Qed.

End Training.

Section TrainingExamples.
Import Engine.

Lemma fit_reproducible_example :
  fst (fit predict_dot small 2 cycling (Model 2 [] [])) =
  fst (fit predict_dot small 2 cycling_later
         (Model 2 [[1%float]] [[2%float]])).
Proof.
  apply (fit_reproducible predict_dot small 2 cycling cycling_later).
  - reflexivity.
  - intros i Hi. simpl in Hi.
    do 8 (destruct i as [|i]; [reflexivity|]). lia.
Defined.

(** A second run that goes on with the generator as the first run left
    it, without seeding it again, starts from other draws and ends with
    other factors. *)
Example unseeded_runs_differ :
  let first := fit predict_dot small 2 cycling (Model 2 [] []) in
  let second := fit predict_dot small 2 (snd first) (Model 2 [] []) in
  is_ok (fst first) = true /\ is_ok (fst second) = true /\
  (first_factor (fst first) =? first_factor (fst second))%float = false.
Proof. by vm_compute. Qed.

(** An index outside the factor matrices raises. *)
Example fit_index_error :
  fst (fit predict_dot
         (Settings 1 1 0.01%float 0.02%float [(3, 0, 5%float)]%nat)
         1 cycling (Model 2 [] [])) = Err IndexError.
Proof. by vm_compute. Qed.

End TrainingExamples.

(** * More of the page *)

(** ** Notifications, the cart and the checkout over all events *)

Section PageEvents.
Import Frontend.

Lemma addNotification_bounded now msg ty s :
  (length (notifications (addNotification now msg ty s)) <= 5)%nat.
Proof.
  change (notifications (addNotification now msg ty s))
    with (Notification now msg ty now :: take 4 (notifications s)).
  simpl. rewrite length_take. lia.
Qed.

Lemma recordAdvancedInteraction_bounded now productId ty s :
  (length (notifications s) <= 5)%nat ->
  (length (notifications (recordAdvancedInteraction now productId ty s)) <= 5)%nat.
Proof.
  intros H. unfold recordAdvancedInteraction.
  destruct (currentUser s); [|done].
  destruct (triggers_update ty); [apply addNotification_bounded|done].
Qed.

Lemma run_bounded now c s :
  (length (notifications s) <= 5)%nat ->
  (length (notifications (run now c s)) <= 5)%nat.
Proof.
  intros H. destruct c as [|u|n]; cbn [run].
  - unfold finishRecommendations.
    destruct (map_random (firstn 6 sampleProducts) (random s)).
    apply addNotification_bounded.
  - done.
  - unfold dropNotification.
    change (notifications (setNotifications ?v _)) with v.
    etrans; [apply length_filter|done].
Qed.

Lemma step_bounded s s' :
  step s s' ->
  (length (notifications s) <= 5)%nat -> (length (notifications s') <= 5)%nat.
Proof.
  destruct 1 as [now u s|now productId ty s|now p s|now s|now i s]; intros H.
  - apply addNotification_bounded.
  - by apply recordAdvancedInteraction_bounded.
  - by apply recordAdvancedInteraction_bounded.
  - apply addNotification_bounded.
  - unfold fire. destruct (timers s !! i) as [[d c]|]; [|done].
    by apply run_bounded.
Qed.

Lemma event_bounded s s' :
  event s s' ->
  (length (notifications s) <= 5)%nat -> (length (notifications s') <= 5)%nat.
Proof.
  destruct 1 as [s s' Hstep|now s|s]; intros H.
  - by apply (step_bounded s).
  - apply addNotification_bounded.
  - unfold refresh. by destruct (currentUser s).
Qed.

(** X1. The page never holds more than five notifications, whatever
    sequence of logins, logouts, clicks, checkouts and timers led to its
    state; and a new notification is always the first of the list. *)
Theorem notifications_bounded s :
  attainable s ->
  (length (notifications s) <= 5)%nat /\
  forall now msg ty,
    head (notifications (addNotification now msg ty s)) =
      Some (Notification now msg ty now).
Proof.
  intros Ha. split; [|done].
  induction Ha as [g|s s' _ IH Hev]; [simpl; lia|].
  by apply (event_bounded s).
Qed.

Lemma step_attainable s : reachable s -> attainable s.
Proof.
  induction 1 as [g|s s' _ IH Hstep]; [constructor|].
  eapply attainable_event; [exact IH|by constructor].
Qed.

Lemma after_purchase_attainable : attainable after_purchase.
Proof.
  apply step_attainable. unfold after_purchase, with_cart, logged_in.
  eapply reachable_step; [|apply step_checkout].
  eapply reachable_step; [|apply step_cart].
  eapply reachable_step; [|apply step_login].
  apply reachable_initial.
Qed.

Lemma notifications_bounded_example :
  (length (notifications after_purchase) <= 5)%nat /\
  forall now msg ty,
    head (notifications (addNotification now msg ty after_purchase)) =
      Some (Notification now msg ty now).
Proof.
  apply (notifications_bounded after_purchase).
  apply after_purchase_attainable.
Defined.

(** The cart under the events that [step] does not have. *)
Lemma event_cart s s' :
  event s s' ->
  step s s' \/ cart s' = cart s.
Proof.
  destruct 1 as [s s' Hstep|now s|s]; [by left|by right|].
  right. unfold refresh. by destruct (currentUser s).
Qed.

Lemma add_item_quantities c p :
  Forall (fun i => (1 <= quantity i)%Z) c ->
  Forall (fun i => (1 <= quantity i)%Z) (add_item c p).
Proof.
  intros H. unfold add_item. destruct (find_item c p).
  - change (map (increment p) c) with (increment p <$> c).
    apply Forall_fmap. eapply Forall_impl; [exact H|].
    intros i Hi. unfold compose, increment. cbv beta in *.
    destruct (_ =? _)%Z; simpl; lia.
  - apply Forall_app. split; [done|]. by repeat constructor.
Qed.

Lemma step_quantities s s' :
  step s s' ->
  Forall (fun i => (1 <= quantity i)%Z) (cart s) ->
  Forall (fun i => (1 <= quantity i)%Z) (cart s').
Proof.
  destruct 1 as [now u s|now productId ty s|now p s|now s|now i s]; intros H.
  - done.
  - by rewrite recordAdvancedInteraction_cart.
  - rewrite addToCart_cart. by apply add_item_quantities.
  - constructor.
  - by rewrite fire_cart.
Qed.

(** X2. In every state of the page, reached by any sequence of its
    events, logout and refresh included, the cart has no product id twice
    and every entry has a quantity of at least 1. *)
Theorem cart_well_formed s :
  attainable s ->
  NoDup (cart_ids (cart s)) /\
  Forall (fun i => (1 <= quantity i)%Z) (cart s).
Proof.
  induction 1 as [g|s s' _ [IHd IHq] Hev].
  - split; constructor.
  - destruct (event_cart s s' Hev) as [Hstep| ->]; [|done].
    split; [by apply (step_cart_ids s)|by apply (step_quantities s)].
Qed.

Lemma cart_well_formed_example :
  NoDup (cart_ids (cart (addToCart 2500 headphones with_cart))) /\
  Forall (fun i => (1 <= quantity i)%Z)
    (cart (addToCart 2500 headphones with_cart)).
Proof.
  apply (cart_well_formed (addToCart 2500 headphones with_cart)).
  apply step_attainable. unfold with_cart, logged_in.
  eapply reachable_step; [|apply step_cart].
  eapply reachable_step; [|apply step_cart].
  eapply reachable_step; [|apply step_login].
  apply reachable_initial.
Defined.

Lemma recordAdvancedInteraction_currentUser now productId ty s :
  currentUser (recordAdvancedInteraction now productId ty s) = currentUser s.
Proof.
  unfold recordAdvancedInteraction.
  destruct (currentUser s) eqn:Hu; [|done].
  by destruct (triggers_update ty).
Qed.

Lemma fold_record_log now (c : list cart_item) s :
  userBehavior
    (fold_left
       (fun s i => recordAdvancedInteraction now (product_id (item i))
                     "purchase" s) c s) =
  userBehavior s ++
    match currentUser s with
    | Some u => map (purchase_of u now) c
    | None => []
    end.
Proof.
  revert s. induction c as [|i c IH]; intros s; simpl.
  - destruct (currentUser s); by rewrite app_nil_r.
  - rewrite IH, recordAdvancedInteraction_currentUser,
      recordAdvancedInteraction_log.
    destruct (currentUser s); [|done]. by rewrite <- app_assoc.
Qed.

Lemma fold_record_currentUser now (c : list cart_item) s :
  currentUser
    (fold_left
       (fun s i => recordAdvancedInteraction now (product_id (item i))
                     "purchase" s) c s) = currentUser s.
Proof.
  revert s. induction c as [|i c IH]; intros s; simpl; [done|].
  by rewrite IH, recordAdvancedInteraction_currentUser.
Qed.

(** X3. The checkout always empties the cart. With a user logged in it
    appends to the behaviour log one purchase for every entry of the
    cart, in the order of the cart, each in the name of that user,
    whoever was logged in when the product was added; with nobody logged
    in it records nothing, and the cart is emptied all the same. *)
Theorem checkout_records_purchases now s :
  cart (checkout now s) = [] /\
  currentUser (checkout now s) = currentUser s /\
  userBehavior (checkout now s) =
    userBehavior s ++
      match currentUser s with
      | Some u => map (purchase_of u now) (cart s)
      | None => []
      end.
Proof.
  split; [done|]. split.
  - unfold checkout. cbn [currentUser setCart]. 
    change (currentUser (addNotification ?a ?b ?c ?t)) with (currentUser t).
    apply fold_record_currentUser.
  - unfold checkout.
    change (userBehavior (setCart ?c ?t)) with (userBehavior t).
    change (userBehavior (addNotification ?a ?b ?c ?t)) with (userBehavior t).
    apply fold_record_log.
Qed.

End PageEvents.

(** ** The catalogue filter *)

Section PageData.
Import Frontend.

Lemma includes_empty s : includes s "" = true.
Proof. destruct s; reflexivity. Qed.

Section Filter.
Variable toLowerCase : string -> string.

Lemma matches_category q cat p :
  matches toLowerCase q cat p = true ->
  cat = "all" \/ product_category p = cat.
Proof.
  unfold matches. intros [_ H]%andb_prop.
  apply orb_prop in H as [H|H]; apply String.eqb_eq in H; auto.
Qed.

(** X7. The catalogue view shows products of the catalogue in the
    order of the catalogue; with a category selected it shows only
    products of that category; what it shows for a category is what it
    shows for "all" filtered by the category; and when the lower-cased
    search text is empty, "all" shows the whole catalogue. *)
Theorem filteredProducts_sound products q cat :
  filteredProducts toLowerCase products q cat `sublist_of` products /\
  (cat <> "all" ->
   Forall (fun p => product_category p = cat)
     (filteredProducts toLowerCase products q cat)) /\
  filteredProducts toLowerCase
    (filteredProducts toLowerCase products q "all") q cat =
    filteredProducts toLowerCase products q cat /\
  (toLowerCase q = "" ->
   filteredProducts toLowerCase products q "all" = products).
Proof.
  unfold filteredProducts. split; [|split; [|split]].
  - induction products as [|p ps IH]; simpl; [constructor|].
    destruct (matches toLowerCase q cat p);
      [by apply sublist_skip | by apply sublist_cons].
  - intros Hcat. apply Forall_forall. intros p Hp.
    apply list_elem_of_In, filter_In in Hp as [_ Hp].
    apply matches_category in Hp as [?|?]; done.
  - induction products as [|p ps IH]; simpl; [done|].
    destruct (matches toLowerCase q "all" p) eqn:Hall; simpl.
    + rewrite IH. done.
    + rewrite IH.
      destruct (matches toLowerCase q cat p) eqn:Hc; [|done].
      unfold matches in *. simpl in Hall.
      apply andb_prop in Hc as [Hs _]. rewrite Hs in Hall. discriminate.
  - intros Hq. induction products as [|p ps IH]; simpl; [done|].
    unfold matches at 1. rewrite Hq, includes_empty. simpl. by rewrite IH.
Qed.

End Filter.

End PageData.

(** * More of the HTTP client *)

Section SearchUrl.
Import Api.

Lemma searchProducts_endpoint env query userId log :
  searchProducts env query userId log =
    request env (search_endpoint query userId) no_options log.
Proof.
  unfold searchProducts, search_endpoint.
  destruct userId as [u|]; [|done]. by destruct (u =? 0)%Z.
Qed.

Lemma urlencode_cons c s :
  Forall (fun x => url_safe x = true)
    (list_ascii_of_string (urlencode (String c ""))) /\
  Engine.occurs "&" (urlencode (String c "")) = false /\
  urlencode (String c s) = (urlencode (String c "") ++ urlencode s)%string /\
  forall r, urldecode (urlencode (String c "") ++ r) = String c (urldecode r).
Proof.
  destruct c as [[] [] [] [] [] [] [] []];
    (split; [by repeat constructor|]; split; [reflexivity|];
     split; reflexivity).
Qed.

Lemma urlencode_safe s :
  Forall (fun x => url_safe x = true) (list_ascii_of_string (urlencode s)).
Proof.
  induction s as [|c s IH]; [constructor|].
  destruct (urlencode_cons c s) as (Hsafe & _ & -> & _).
  revert Hsafe. generalize (urlencode (String c "")). intros e He.
  induction e as [|x e IHe]; [done|].
  simpl in *. inversion He; subst. constructor; auto.
Qed.

Lemma urldecode_urlencode s : urldecode (urlencode s) = s.
Proof.
  induction s as [|c s IH]; [done|].
  destruct (urlencode_cons c s) as (_ & _ & -> & ->). by rewrite IH.
Qed.

Lemma occurs_append c a b :
  Engine.occurs c (a ++ b) = Engine.occurs c a || Engine.occurs c b.
Proof.
  induction a as [|x a IH]; [done|].
  change (String x a ++ b)%string with (String x (a ++ b)).
  simpl. rewrite IH. by destruct (Ascii.eqb x c).
Qed.

Lemma urlencode_no_ampersand s : Engine.occurs "&" (urlencode s) = false.
Proof.
  induction s as [|c s IH]; [done|].
  destruct (urlencode_cons c s) as (_ & Hc & -> & _).
  by rewrite occurs_append, Hc, IH.
Qed.

(** X8. What [URLSearchParams] makes of a search text is made of letters,
    digits, [* - . _ + %] only, and reads back as the text itself: no
    text can add a parameter to the address or end it. *)
Theorem urlencode_round_trip query :
  Forall (fun x => url_safe x = true)
    (list_ascii_of_string (urlencode query)) /\
  Engine.occurs "&" (urlencode query) = false /\
  urldecode (urlencode query) = query.
Proof.
  split; [apply urlencode_safe|]. split; [apply urlencode_no_ampersand|].
  apply urldecode_urlencode.
Qed.

Lemma split_at_char c a a' b b' :
  Engine.occurs c a = false -> Engine.occurs c a' = false ->
  (a ++ String c b = a' ++ String c b')%string -> a = a' /\ b = b'.
Proof.
  revert a'. induction a as [|x a IH]; intros [|x' a']; simpl.
  - intros _ _ [= ->]. done.
  - destruct (Ascii.eqb_spec x' c); [done|]. intros _ _ [= <-]. done.
  - destruct (Ascii.eqb_spec x c); [done|]. intros _ _ [= ->]. done.
  - destruct (Ascii.eqb_spec x c); [done|].
    destruct (Ascii.eqb_spec x' c); [done|].
    intros Ha Ha' [= -> H]. by destruct (IH a' Ha Ha' H) as [-> ->].
Qed.

Lemma urlencode_inj q q' : urlencode q = urlencode q' -> q = q'.
Proof.
  intros H. apply (f_equal urldecode) in H.
  by rewrite !urldecode_urlencode in H.
Qed.

(** X9. Two searches ask for the same address only when they have the
    same text and send the same user id, where an absent user id and the
    user id 0 both send none: [searchProducts] is [request] on an
    address that determines the search. *)
Theorem search_endpoint_determines query userId query' userId' :
  search_endpoint query userId = search_endpoint query' userId' ->
  query = query' /\ sent_user userId = sent_user userId'.
Proof.
  assert (Hnil : forall t : string, (t ++ "")%string = t).
  { induction t as [|c t IH]; [done|].
    change (String c t ++ "")%string with (String c (t ++ "")).
    by rewrite IH. }
  assert (Hform : forall q u,
            search_endpoint q u =
              ("/search/?q=" ++ urlencode q ++
                 match sent_user u with
                 | Some n => String "&" ("user_id=" ++ number_to_string n)
                 | None => ""
                 end)%string).
  { intros q u. unfold search_endpoint, sent_user.
    destruct u as [n|]; [destruct (n =? 0)%Z|].
    - by rewrite Hnil.
    - by rewrite append_assoc.
    - by rewrite Hnil. }
  rewrite !Hform. intros H. apply String.app_inj in H.
  pose proof (urlencode_no_ampersand query) as Ha.
  pose proof (urlencode_no_ampersand query') as Ha'.
  destruct (sent_user userId) as [n|], (sent_user userId') as [n'|].
  - apply split_at_char in H as [Hq Hn]; [|done|done].
    apply String.app_inj in Hn.
    split; [by apply urlencode_inj|].
    f_equal. by apply number_to_string_inj.
  - apply (f_equal (Engine.occurs "&")) in H.
    rewrite !occurs_append, Ha, Ha' in H. simpl in H. discriminate.
  - apply (f_equal (Engine.occurs "&")) in H.
    rewrite !occurs_append, Ha, Ha' in H. simpl in H. discriminate.
  - split; [|done]. apply urlencode_inj.
    by rewrite !Hnil in H.
Qed.

Lemma search_endpoint_determines_example :
  "red shoes"%string = "red shoes"%string /\
  sent_user (Some 0%Z) = sent_user None.
Proof.
  apply (search_endpoint_determines "red shoes" (Some 0%Z) "red shoes" None).
  reflexivity.
Defined.

(** X10. A failure that [getAllProducts] hides from its caller is
    still written to the console, once; a search that succeeds writes
    nothing. *)
Theorem getAllProducts_logs_failure env log :
  snd (getAllProducts env log) =
    match fst (searchProducts env "" None log) with
    | Ok _ => log
    | Err e => log ++ [e]
    end.
Proof.
  unfold getAllProducts. rewrite searchProducts_all.
  pose proof (request_outcome env "/search/?q=" no_options log) as H.
  by destruct (request env "/search/?q=" no_options log) as [[v|e] log'].
Qed.

End SearchUrl.

(** * More of the engine *)

Section CacheLife.
Import Engine.

Lemma cache_get_set now later key v timeout (c : gmap string entry) :
  cache_get later key (cache_set now key v timeout c) =
    if (later <? now + timeout)%Z then Some v else None.
Proof. unfold cache_get, cache_set. by rewrite lookup_insert_eq. Qed.

Lemma cache_get_other now later key key' v timeout (c : gmap string entry) :
  key' <> key ->
  cache_get later key' (cache_set now key v timeout c) = cache_get later key' c.
Proof. intros Hne. unfold cache_get, cache_set. by rewrite lookup_insert_ne. Qed.

Lemma get_recommendations_hit later u n s r l :
  cache_get later (cache_key u n) (cache s) = Some (r :: l) ->
  get_recommendations later u n s = (r :: l, s).
Proof. unfold get_recommendations. by intros ->. Qed.

Lemma get_recommendations_cache now u n s k :
  k <> cache_key u n ->
  cache (snd (get_recommendations now u n s)) !! k = cache s !! k.
Proof.
  intros Hne. unfold get_recommendations.
  destruct (cache_get now (cache_key u n) (cache s)) as [[|r l]|];
    cbn [snd]; try done;
    change (cache (set_cache ?c _)) with c; unfold cache_set;
    by rewrite lookup_insert_ne.
Qed.

Lemma get_recommendations_set_cache now u n s :
  exists c, snd (get_recommendations now u n s) = set_cache c s.
Proof.
  unfold get_recommendations.
  destruct (cache_get now (cache_key u n) (cache s)) as [[|r l]|];
    cbn [snd]; eauto.
  exists (cache s). by destruct s.
Qed.

(** X11. A list that [get_recommendations] has computed is served again,
    with nothing changed, to every request of the same user and count
    before 1800 seconds have passed, if it is not empty; from 1800
    seconds on, and for an empty list at any time, the next request
    computes again. *)
Theorem get_recommendations_cached now u n s :
  served_from_cache now u n s = false ->
  let recs := fst (get_recommendations now u n s) in
  let s' := snd (get_recommendations now u n s) in
  (forall later, (later < now + 1800)%Z -> recs <> [] ->
                 get_recommendations later u n s' = (recs, s')) /\
  (forall later, (now + 1800 <= later)%Z ->
                 served_from_cache later u n s' = false) /\
  (recs = [] -> forall later, served_from_cache later u n s' = false).
Proof.
  intros Hmiss. rewrite (get_recommendations_miss _ _ _ _ Hmiss).
  cbn [fst snd]. set (recs := compute_recommendations u n s).
  repeat split.
  - intros later Hlater Hne. destruct recs as [|r l] eqn:Hrecs; [done|].
    apply get_recommendations_hit.
    change (cache (set_cache ?c _)) with c.
    rewrite cache_get_set. by rewrite (proj2 (Z.ltb_lt _ _) Hlater).
  - intros later Hlater. unfold served_from_cache.
    change (cache (set_cache ?c _)) with c.
    rewrite cache_get_set. by rewrite (proj2 (Z.ltb_ge _ _) Hlater).
  - intros Hnil later. unfold served_from_cache.
    change (cache (set_cache ?c _)) with c.
    rewrite cache_get_set, Hnil. by destruct (later <? now + 1800)%Z.
Qed.

Lemma get_recommendations_cached_example :
  let recs := fst (get_recommendations 0 7 10 shop) in
  let s' := snd (get_recommendations 0 7 10 shop) in
  (forall later, (later < 0 + 1800)%Z -> recs <> [] ->
                 get_recommendations later 7 10 s' = (recs, s')) /\
  (forall later, (0 + 1800 <= later)%Z ->
                 served_from_cache later 7 10 s' = false) /\
  (recs = [] -> forall later, served_from_cache later 7 10 s' = false).
Proof. apply (get_recommendations_cached 0 7 10 shop). reflexivity. Defined.

(** X12. A request touches nothing but the cache entry of its own user
    and count: the tables, the models and every other cache key are as
    before, and so is the answer to any request of another user or for
    another count. *)
Theorem get_recommendations_frame now u n s :
  let s' := snd (get_recommendations now u n s) in
  products s' = products s /\ behaviors s' = behaviors s /\
  collaborative_filtering_model s' = collaborative_filtering_model s /\
  matrix_factorization_model s' = matrix_factorization_model s /\
  (forall k, k <> cache_key u n -> cache s' !! k = cache s !! k) /\
  (forall later u' n', (u', n') <> (u, n) ->
     fst (get_recommendations later u' n' s') =
     fst (get_recommendations later u' n' s)).
Proof.
  cbn zeta.
  pose proof (get_recommendations_set_cache now u n s) as Hs.
  repeat split; try (destruct Hs as [c ->]; reflexivity).
  - intros k Hk. by apply get_recommendations_cache.
  - intros later u' n' Hne.
    assert (Hk : cache_key u' n' <> cache_key u n).
    { intros [-> ->]%cache_key_inj. done. }
    pose proof (get_recommendations_cache now u n s _ Hk) as Hc.
    destruct Hs as [c Hs]. rewrite Hs in Hc |- *.
    change (cache (set_cache c s)) with c in Hc.
    unfold get_recommendations, cache_get.
    change (cache (set_cache c s)) with c. rewrite Hc.
    destruct (cache s !! cache_key u' n') as [e|]; [|done].
    destruct (later <? expires e)%Z; [|done]. by destruct (value e).
Qed.


(** X14. [precompute_recommendations] leaves under the key of the user
    and the count 10 the list that [get_recommendations] gave it, to
    expire 3600 seconds later, and no other key is changed. Until then a
    request for ten recommendations gets this list, if it is not empty,
    and changes nothing. *)
Theorem precompute_recommendations_stores now u s :
  let recs := fst (get_recommendations now u 10 s) in
  let s' := precompute_recommendations now u s in
  cache s' !! cache_key u 10 = Some (Entry recs (now + 3600)) /\
  (forall k, k <> cache_key u 10 -> cache s' !! k = cache s !! k) /\
  products s' = products s /\ behaviors s' = behaviors s /\
  (forall later, (later < now + 3600)%Z -> recs <> [] ->
                 get_recommendations later u 10 s' = (recs, s')).
Proof.
  unfold precompute_recommendations.
  pose proof (get_recommendations_cache now u 10 s) as Hc.
  destruct (get_recommendations_set_cache now u 10 s) as [c Hs].
  assert (Hp : products (snd (get_recommendations now u 10 s)) = products s)
    by by rewrite Hs.
  assert (Hb : behaviors (snd (get_recommendations now u 10 s)) = behaviors s)
    by by rewrite Hs.
  clear c Hs.
  destruct (get_recommendations now u 10 s) as [recs s1]. cbn [fst snd] in *.
  cbn zeta. change (cache (set_cache ?c _)) with c.
  repeat split.
  - unfold cache_set. by rewrite lookup_insert_eq.
  - intros k Hk. unfold cache_set. rewrite lookup_insert_ne by done. by apply Hc.
  - done.
  - done.
  - intros later Hlater Hne. destruct recs as [|r l]; [done|].
    apply get_recommendations_hit.
    change (cache (set_cache ?c _)) with c.
    rewrite cache_get_set. by rewrite (proj2 (Z.ltb_lt _ _) Hlater).
Qed.

End CacheLife.

Section TopN.
Import Engine.

Lemma scored_length u s : length (scored u s) = length (candidates u s).
Proof. by rewrite <- (scored_candidates u s), length_map. Qed.

(** X15. Where no blended score is a NaN, what [get_recommendations]
    computes is the head of the ranking: the candidates left out score
    no higher, as doubles compare, than any that is returned, and the
    returned list and the rest together are the scored candidates. For a
    count [n >= 0] it holds [n] entries, or all candidates if there are
    fewer; for a negative count [-k] it holds all candidates but the [k]
    lowest. *)
Theorem compute_recommendations_top u n s :
  Forall (fun x => is_nan (snd x) = false) (scored u s) ->
  let recs := compute_recommendations u n s in
  (exists rest,
     map format (scored u s) ≡ₚ recs ++ rest /\
     forall r x, r ∈ recs -> x ∈ rest ->
                 (confidence_score x <=? confidence_score r)%float = true) /\
  ((0 <= n)%Z ->
   length recs = Nat.min (Z.to_nat n) (length (candidates u s))) /\
  ((n < 0)%Z ->
   length recs = (length (candidates u s) - Z.to_nat (- n))%nat).
Proof.
  intros Hnan. cbn zeta. rewrite compute_recommendations_ranked.
  pose proof (sorted_reverse_Permutation (scored u s)) as Hperm.
  pose proof (sorted_reverse_descending (scored u s) Hnan) as Hsorted.
  pose proof (scored_length u s) as Hlen.
  rewrite <- (Permutation_length Hperm) in Hlen.
  revert Hperm Hsorted Hlen. generalize (sorted_reverse (scored u s)).
  intros ranked Hperm Hsorted Hlen. repeat split.
  - destruct (slice_to_take n ranked) as [k ->].
    exists (map format (drop k ranked)). split.
    + rewrite <- map_app, take_drop. by rewrite Hperm.
    + change (map format ?l) with (format <$> l).
      intros r x (a & -> & Ha)%list_elem_of_fmap (b & -> & Hb)%list_elem_of_fmap.
      rewrite <- (take_drop k ranked) in Hsorted.
      apply (StronglySorted_app_1_elem_of _ _ _ a b Hsorted Ha Hb).
  - intros Hn. unfold slice_to. rewrite (proj2 (Z.leb_le 0 n) Hn).
    rewrite length_map, length_take. lia.
  - intros Hn. unfold slice_to. rewrite (proj2 (Z.leb_gt 0 n) Hn).
    rewrite length_map, length_take. lia.
Qed.

(** One recommendation under the two models that disagree: the watch,
    whose blend is the higher double. *)
Lemma compute_recommendations_top_example :
  let recs := compute_recommendations 7 1 divided in
  (exists rest,
     map format (scored 7 divided) ≡ₚ recs ++ rest /\
     forall r x, r ∈ recs -> x ∈ rest ->
                 (confidence_score x <=? confidence_score r)%float = true) /\
  ((0 <= 1)%Z ->
   length recs = Nat.min (Z.to_nat 1) (length (candidates 7 divided))) /\
  ((1 < 0)%Z ->
   length recs = (length (candidates 7 divided) - Z.to_nat (- 1))%nat).
Proof.
  apply (compute_recommendations_top 7 1 divided).
  vm_compute. by repeat constructor.
Defined.

End TopN.

Section Decay.
Import Engine.
Local Open Scope R_scope.






End Decay.

Section Fitting.
Import Engine.

Variable predict_single : model -> nat -> nat -> result exception float.

Lemma normal_matrix_shaped rows cols g :
  shaped rows cols (fst (normal_matrix rows cols g)).
Proof.
  rewrite normal_matrix_draws. cbn [fst]. split.
  - by rewrite length_map, length_seq.
  - apply List.Forall_forall. intros v (r & <- & _)%in_map_iff.
    by rewrite length_map, length_seq.
Qed.

Lemma fit_start cfg epochs g self :
  let U := fst (normal_matrix (n_users cfg) (n_factors self) g) in
  let g' := snd (normal_matrix (n_users cfg) (n_factors self) g) in
  let V := fst (normal_matrix (n_items cfg) (n_factors self) g') in
  fit predict_single cfg epochs g self =
    (sgd predict_single cfg (Z.to_nat epochs) (Model (n_factors self) U V),
     snd (normal_matrix (n_items cfg) (n_factors self) g')) /\
  fitted cfg (n_factors self) (Model (n_factors self) U V).
Proof.
  cbn zeta. split.
  - unfold fit.
    destruct (normal_matrix (n_users cfg) (n_factors self) g) as [U g'].
    cbn [fst snd].
    by destruct (normal_matrix (n_items cfg) (n_factors self) g') as [V g''].
  - split; [done|]. split; apply normal_matrix_shaped.
Qed.

(** One update: the two rows it reads exist, and it writes these two
    rows and no other. *)
Lemma sgd_step_Ok cfg self u i rating self' :
  sgd_step predict_single cfg self (u, i, rating) = Ok self' ->
  exists uf vf uf' vf',
    user_factors self !! u = Some uf /\ item_factors self !! i = Some vf /\
    self' = Model (n_factors self) (<[u := uf']> (user_factors self))
                  (<[i := vf']> (item_factors self)) /\
    length uf' = Nat.min (length uf) (length vf) /\
    length vf' = Nat.min (length vf) (length uf).
Proof.
  unfold sgd_step.
  destruct (predict_single self u i) as [prediction|e]; [|done].
  destruct (user_factors self !! u) as [uf|]; [|done].
  destruct (item_factors self !! i) as [vf|]; [|done].
  intros [= <-]. eexists uf, vf, _, _. repeat split.
  - unfold vadd, vsub, scale.
    repeat (rewrite length_zip_with || rewrite length_map). lia.
  - unfold vadd, vsub, scale.
    repeat (rewrite length_zip_with || rewrite length_map). lia.
Qed.

Lemma shaped_insert rows cols (m : matrix) j v :
  shaped rows cols m -> length v = cols -> shaped rows cols (<[j := v]> m).
Proof.
  intros [Hl Hr] Hv. unfold matrix, vector in *.
  split; [by rewrite length_insert|].
  by apply Forall_insert.
Qed.

Lemma shaped_lookup rows cols (m : matrix) j v :
  shaped rows cols m -> m !! j = Some v -> (j < rows)%nat /\ length v = cols.
Proof.
  intros [Hl Hr] Hj. split.
  - rewrite <- Hl. by apply lookup_lt_Some in Hj.
  - by apply (Forall_lookup_1 _ _ _ _ Hr Hj).
Qed.

Lemma sgd_step_fitted cfg k self t self' :
  fitted cfg k self -> sgd_step predict_single cfg self t = Ok self' ->
  fitted cfg k self' /\ in_range cfg t.
Proof.
  intros (Hk & HU & HV) Hstep. destruct t as [[u i] rating].
  apply sgd_step_Ok in Hstep
    as (uf & vf & uf' & vf' & Hu & Hi & -> & Huf & Hvf).
  destruct (shaped_lookup _ _ _ _ _ HU Hu) as [Hlt Hlen].
  destruct (shaped_lookup _ _ _ _ _ HV Hi) as [Hlt' Hlen'].
  split; [|done]. split; [done|].
  split; apply shaped_insert; cbn [user_factors item_factors]; try done; lia.
Qed.

Lemma sgd_epoch_fitted cfg k data self self' :
  fitted cfg k self -> sgd_epoch predict_single cfg self data = Ok self' ->
  fitted cfg k self' /\ Forall (in_range cfg) data.
Proof.
  revert self. induction data as [|t data IH]; intros self Hf; simpl.
  - intros [= <-]. by split.
  - destruct (sgd_step predict_single cfg self t) as [self1|e] eqn:Hstep; [|done].
    destruct (sgd_step_fitted _ _ _ _ _ Hf Hstep) as [Hf1 Ht].
    intros Hrest. destruct (IH _ Hf1 Hrest) as [Hf' Hdata].
    split; [done|]. by constructor.
Qed.

Lemma sgd_fitted cfg k epochs self self' :
  fitted cfg k self -> sgd predict_single cfg epochs self = Ok self' ->
  fitted cfg k self' /\ (epochs = 0%nat \/ Forall (in_range cfg) (training_data cfg)).
Proof.
  revert self. induction epochs as [|epochs IH]; intros self Hf; simpl.
  - intros [= <-]. split; [done|by left].
  - destruct (sgd_epoch predict_single cfg self (training_data cfg))
      as [self1|e] eqn:Hepoch; [|done].
    destruct (sgd_epoch_fitted _ _ _ _ _ Hf Hepoch) as [Hf1 Hdata].
    intros Hrest. destruct (IH _ Hf1 Hrest) as [Hf' _].
    split; [done|by right].
Qed.

(** X17. [fit] draws [(n_users + n_items) * n_factors] values from the
    generator, whatever happens next, and a model it returns has user
    factors of [n_users] rows and item factors of [n_items] rows, each
    row of [n_factors] entries: the updates never change a shape. *)
Theorem fit_shape cfg epochs g self :
  snd (fit predict_single cfg epochs g self) =
    RandomSource (draws g)
      (position g + (n_users cfg + n_items cfg) * n_factors self) /\
  forall m, fst (fit predict_single cfg epochs g self) = Ok m ->
            fitted cfg (n_factors self) m.
Proof.
  destruct (fit_start cfg epochs g self) as [-> Hf]. cbn [fst snd]. split.
  - rewrite !normal_matrix_draws. cbn [fst snd draws position].
    f_equal. lia.
  - intros m Hm. by destruct (sgd_fitted _ _ _ _ _ Hf Hm).
Qed.

Lemma sgd_epoch_in_range cfg k data self :
  (forall m u i, (u < length (user_factors m))%nat ->
                 (i < length (item_factors m))%nat ->
                 is_ok (predict_single m u i) = true) ->
  fitted cfg k self -> Forall (in_range cfg) data ->
  exists self', sgd_epoch predict_single cfg self data = Ok self'.
Proof.
  intros Hps. revert self.
  induction data as [|[[u i] rating] data IH]; intros self Hf Hdata;
    cbn [sgd_epoch].
  - eauto.
  - apply Forall_cons in Hdata as [[Hu Hi] Hdata]. cbn [fst snd] in Hu, Hi.
    destruct (sgd_step predict_single cfg self (u, i, rating))
      as [self1|e] eqn:Hstep.
    + apply IH; [|done]. by destruct (sgd_step_fitted _ _ _ _ _ Hf Hstep).
    + exfalso. revert Hstep. unfold sgd_step.
      destruct Hf as (_ & [HU _] & [HV _]).
      specialize (Hps self u i). rewrite HU, HV in Hps.
      specialize (Hps Hu Hi).
      destruct (predict_single self u i) as [prediction|e']; [|done].
      destruct (lookup_lt_is_Some_2 (user_factors self) u) as [uf Huf]; [lia|].
      destruct (lookup_lt_is_Some_2 (item_factors self) i) as [vf Hvf]; [lia|].
      unfold matrix, vector in *. by rewrite Huf, Hvf.
Qed.

Lemma sgd_in_range cfg k epochs self :
  (forall m u i, (u < length (user_factors m))%nat ->
                 (i < length (item_factors m))%nat ->
                 is_ok (predict_single m u i) = true) ->
  fitted cfg k self -> Forall (in_range cfg) (training_data cfg) ->
  exists self', sgd predict_single cfg epochs self = Ok self'.
Proof.
  intros Hps. revert self.
  induction epochs as [|epochs IH]; intros self Hf Hdata; simpl; [eauto|].
  destruct (sgd_epoch_in_range cfg k _ self Hps Hf Hdata) as [self1 Hepoch].
  rewrite Hepoch. apply IH; [|done].
  by destruct (sgd_epoch_fitted _ _ _ _ _ Hf Hepoch).
Qed.

(** X18. With a [predict_single] that does not raise for indices inside
    the two matrices, [fit] returns exactly when there is no epoch to
    run or every training triple has its user index below [n_users] and
    its item index below [n_items]; otherwise it raises. *)
Theorem fit_returns_iff cfg epochs g self :
  (forall m u i, (u < length (user_factors m))%nat ->
                 (i < length (item_factors m))%nat ->
                 is_ok (predict_single m u i) = true) ->
  is_ok (fst (fit predict_single cfg epochs g self)) = true <->
  (epochs <= 0)%Z \/ Forall (in_range cfg) (training_data cfg).
Proof.
  intros Hps. destruct (fit_start cfg epochs g self) as [-> Hf].
  cbn [fst]. split.
  - destruct (sgd _ _ _ _) as [m|e] eqn:Hm; [|done]. intros _.
    destruct (sgd_fitted _ _ _ _ _ Hf Hm) as [_ [H0|Hdata]]; [left; lia|by right].
  - intros [H0|Hdata].
    + by replace (Z.to_nat epochs) with 0%nat by lia.
    + destruct (sgd_in_range cfg _ (Z.to_nat epochs) _ Hps Hf Hdata) as [m ->].
      done.
Qed.

Lemma sgd_step_frame cfg self t self' :
  sgd_step predict_single cfg self t = Ok self' ->
  (forall u, fst (fst t) <> u -> user_factors self' !! u = user_factors self !! u) /\
  (forall i, snd (fst t) <> i -> item_factors self' !! i = item_factors self !! i).
Proof.
  destruct t as [[u i] rating]. intros Hstep.
  apply sgd_step_Ok in Hstep as (uf & vf & uf' & vf' & _ & _ & -> & _ & _).
  cbn [fst snd user_factors item_factors].
  unfold matrix, vector in *.
  split; intros j Hj; by rewrite list_lookup_insert_ne.
Qed.

Lemma sgd_epoch_frame cfg data self self' :
  sgd_epoch predict_single cfg self data = Ok self' ->
  (forall u, (forall t, t ∈ data -> fst (fst t) <> u) ->
             user_factors self' !! u = user_factors self !! u) /\
  (forall i, (forall t, t ∈ data -> snd (fst t) <> i) ->
             item_factors self' !! i = item_factors self !! i).
Proof.
  revert self. induction data as [|t data IH]; intros self; simpl.
  - by intros [= <-].
  - destruct (sgd_step predict_single cfg self t) as [self1|e] eqn:Hstep; [|done].
    intros Hrest. destruct (IH _ Hrest) as [HU HV].
    destruct (sgd_step_frame _ _ _ _ Hstep) as [HU1 HV1].
    split; intros j Hj.
    + rewrite HU by (intros t' Ht'; apply Hj; by right).
      apply HU1, Hj. by left.
    + rewrite HV by (intros t' Ht'; apply Hj; by right).
      apply HV1, Hj. by left.
Qed.

Lemma sgd_frame cfg epochs self self' :
  sgd predict_single cfg epochs self = Ok self' ->
  (forall u, (forall t, t ∈ training_data cfg -> fst (fst t) <> u) ->
             user_factors self' !! u = user_factors self !! u) /\
  (forall i, (forall t, t ∈ training_data cfg -> snd (fst t) <> i) ->
             item_factors self' !! i = item_factors self !! i).
Proof.
  revert self. induction epochs as [|epochs IH]; intros self; simpl.
  - by intros [= <-].
  - destruct (sgd_epoch predict_single cfg self (training_data cfg))
      as [self1|e] eqn:Hepoch; [|done].
    intros Hrest. destruct (IH _ Hrest) as [HU HV].
    destruct (sgd_epoch_frame _ _ _ _ Hepoch) as [HU1 HV1].
    split; intros j Hj.
    + by rewrite HU, HU1.
    + by rewrite HV, HV1.
Qed.

(** X19. Training moves only the rows it has triples for: in a model
    that [fit] returns, the factors of a user, or of an item, that no
    training triple names are the values the initialisation drew for
    it; and with no epoch to run, all factors are. *)
Theorem fit_untrained_rows cfg epochs g self :
  let U := fst (normal_matrix (n_users cfg) (n_factors self) g) in
  let g' := snd (normal_matrix (n_users cfg) (n_factors self) g) in
  let V := fst (normal_matrix (n_items cfg) (n_factors self) g') in
  ((epochs <= 0)%Z ->
   fst (fit predict_single cfg epochs g self) = Ok (Model (n_factors self) U V)) /\
  forall m, fst (fit predict_single cfg epochs g self) = Ok m ->
    (forall u, (forall t, t ∈ training_data cfg -> fst (fst t) <> u) ->
               user_factors m !! u = U !! u) /\
    (forall i, (forall t, t ∈ training_data cfg -> snd (fst t) <> i) ->
               item_factors m !! i = V !! i).
Proof.
  cbn zeta. destruct (fit_start cfg epochs g self) as [-> _]. cbn [fst].
  split.
  - intros H0. by replace (Z.to_nat epochs) with 0%nat by lia.
  - intros m Hm. apply (sgd_frame _ _ _ _ Hm).
Qed.

End Fitting.

Section FittingExamples.
Import Engine.

Lemma predict_dot_in_range m u i :
  (u < length (user_factors m))%nat -> (i < length (item_factors m))%nat ->
  is_ok (predict_dot m u i) = true.
Proof.
  intros Hu Hi. unfold predict_dot.
  destruct (lookup_lt_is_Some_2 (user_factors m) u Hu) as [uf Huf].
  destruct (lookup_lt_is_Some_2 (item_factors m) i Hi) as [vf Hvf].
  unfold matrix, vector in *. by rewrite Huf, Hvf.
Qed.

Lemma fit_returns_iff_example :
  is_ok (fst (fit predict_dot small 2 cycling (Model 2 [] []))) = true <->
  (2 <= 0)%Z \/ Forall (in_range small) (training_data small).
Proof.
  apply (fit_returns_iff predict_dot small 2 cycling (Model 2 [] [])).
  apply predict_dot_in_range.
Defined.

End FittingExamples.

Section View.
Import Engine.

(** X21. [InteractionAPIView.post] answers 400 exactly when one of
    [user_id], [product_id] and [interaction_type] is missing, 0 or
    empty, with all three there it answers 500, with the database's message, exactly when the database
    turns the row away, and 201 otherwise. Only with 201 has anything
    changed: the log has the one new row, stamped with the time of the
    request; the rating is not looked at. *)
Theorem post_outcome database now user product ty rating s :
  let resp := fst (post database now user product ty rating s) in
  let s' := snd (post database now user product ty rating s) in
  let complete u p t :=
    user = Some u /\ product = Some p /\ ty = Some t /\
    u <> 0%Z /\ p <> 0%Z /\ t <> ""%string in
  match resp with
  | BadRequest _ => (forall u p t, ~ complete u p t) /\ s' = s
  | ServerError e =>
      s' = s /\
      exists u p t, complete u p t /\
                    database (Row u p t rating now) = Some e
  | Created _ =>
      products s' = products s /\
      exists u p t, complete u p t /\
                    database (Row u p t rating now) = None /\
                    behaviors s' = behaviors s ++ [Row u p t rating now]
  end.
Proof.
  cbn zeta. unfold post.
  destruct user as [u|], product as [p|], ty as [t|]; cbn [fst snd];
    try (split; [|done]; intros ? ? ? (? & ? & ? & _); congruence).
  destruct (Z.eqb_spec u 0) as [->|Hu]; cbn [orb fst snd].
  { split; [|done]. intros ? ? ? ([= <-] & _ & _ & ? & _). done. }
  destruct (Z.eqb_spec p 0) as [->|Hp]; cbn [orb fst snd].
  { split; [|done]. intros ? ? ? (_ & [= <-] & _ & _ & ? & _). done. }
  destruct (String.eqb_spec t "") as [->|Ht]; cbn [fst snd].
  { split; [|done]. intros ? ? ? (_ & _ & [= <-] & _ & _ & ?). done. }
  destruct (database (Row u p t rating now)) as [e|] eqn:Hdb; cbn [fst snd].
  - split; [done|]. by exists u, p, t.
  - split; [done|]. by exists u, p, t.
Qed.

End View.
